(** * INK: conversation memory, response engine, image emitter and dispatcher

    A shallow embedding of [Ink.py].  The Python objects become records, the
    methods become state transformers over the object and the outside world
    (the snapshot file, the image directory, the clock and the remote text
    service), and the statements at the end of the file are proved about
    these definitions.

    Modelling conventions.
    - Text is a Rocq [string]; its characters stand for the code points
      0 to 255, and [str.lower] and [str.strip] follow Python on that range.
    - The entries of [current_session] and [thinking_log] are the dicts the
      program itself builds: three respectively two string fields.
    - A file holds the JSON document that [json.dump] wrote; [json.load]
      gives that document back.  Writing a file always succeeds.
    - [datetime.now], [time.time] and the remote service are oracles read
      through counters kept in the world. *)

From Stdlib Require Import List String Ascii ZArith Lia Bool Arith.
From Stdlib Require Import DecimalString.
Import ListNotations.
Open Scope string_scope.

(* ------------------------------------------------------------------ *)
(** ** Python text and sequence primitives *)

Module Py.

(** [l[start:]] for a list. *)
Definition slice_from {A : Type} (start : Z) (l : list A) : list A :=
  let n := Z.of_nat (List.length l) in
  let i := if (start <? 0)%Z then Z.max 0 (n + start) else Z.min start n in
  skipn (Z.to_nat i) l.

(** [l[:stop]] for a list. *)
Definition slice_to {A : Type} (stop : Z) (l : list A) : list A :=
  let n := Z.of_nat (List.length l) in
  let j := if (stop <? 0)%Z then Z.max 0 (n + stop) else Z.min stop n in
  firstn (Z.to_nat j) l.

(** [s[start:]] and [s[:stop]] for a string. *)
Definition str_from (start : Z) (s : string) : string :=
  string_of_list_ascii (slice_from start (list_ascii_of_string s)).

Definition str_to (stop : Z) (s : string) : string :=
  string_of_list_ascii (slice_to stop (list_ascii_of_string s)).

(** [s.startswith(p)]. *)
Fixpoint startswith (s p : string) {struct p} : bool :=
  match p with
  | EmptyString => true
  | String c p' =>
      match s with
      | EmptyString => false
      | String d s' => Ascii.eqb d c && startswith s' p'
      end
  end.

(** [sub in s]. *)
Fixpoint contains (sub s : string) : bool :=
  startswith s sub ||
  match s with
  | EmptyString => false
  | String _ s' => contains sub s'
  end.

(** [str.lower] on one code point: A-Z, and the upper-case letters of
    the range 192-222 (215, the multiplication sign, has no case). *)
Definition lower_char (c : ascii) : ascii :=
  let n := nat_of_ascii c in
  if (((65 <=? n) && (n <=? 90))
      || ((192 <=? n) && (n <=? 222) && negb (n =? 215)))%nat
  then ascii_of_nat (n + 32) else c.

Fixpoint lower (s : string) : string :=
  match s with
  | EmptyString => EmptyString
  | String c s' => String (lower_char c) (lower s')
  end.

(** [str.isspace] on one code point. *)
Definition isspace (c : ascii) : bool :=
  let n := nat_of_ascii c in
  (((9 <=? n) && (n <=? 13)) || ((28 <=? n) && (n <=? 32))
   || (n =? 133) || (n =? 160))%nat.

Fixpoint lstrip_chars (l : list ascii) : list ascii :=
  match l with
  | [] => []
  | c :: l' => if isspace c then lstrip_chars l' else l
  end.

(** [s.strip()]. *)
Definition strip (s : string) : string :=
  string_of_list_ascii
    (rev (lstrip_chars (rev (lstrip_chars (list_ascii_of_string s))))).

Definition nl : string := String (ascii_of_nat 10) EmptyString.

(** [sep.join(parts)]. *)
Fixpoint join (sep : string) (parts : list string) : string :=
  match parts with
  | [] => ""
  | [p] => p
  | p :: rest => p ++ sep ++ join sep rest
  end.

(** [str(n)] for an integer. *)
Definition str_of_int (z : Z) : string :=
  NilZero.string_of_int (Z.to_int z).

End Py.

(* ------------------------------------------------------------------ *)
(** ** JSON documents

    What [json.load] gives for a text it accepts.  Numbers are the
    integers; the program writes no number at all. *)

#[local] Set Warnings "-register-all".

Inductive json : Type :=
| JNull
| JBool (b : bool)
| JNum (z : Z)
| JStr (s : string)
| JArr (items : list json)
| JObj (members : list (string * json)).

(** [d.get(key)] on the dict [json.load] builds from an object: when the
    text repeats a key, the last member is the one kept. *)
Fixpoint dict_get (key : string) (d : list (string * json)) : option json :=
  match d with
  | [] => None
  | (k, v) :: d' =>
      match dict_get key d' with
      | Some v' => Some v'
      | None => if String.eqb k key then Some v else None
      end
  end.

(* ------------------------------------------------------------------ *)
(** ** Data model *)

(** The dict [add_message] appends. *)
Record Turn : Type := mkTurn {
  role : string;
  content : string;
  timestamp : string
}.

(** The dict [add_thinking] appends. *)
Record ThoughtEntry : Type := mkThought {
  thought : string;
  thought_timestamp : string
}.

Definition json_of_turn (t : Turn) : json :=
  JObj [("role", JStr (role t)); ("content", JStr (content t));
        ("timestamp", JStr (timestamp t))].

Definition json_of_thought (t : ThoughtEntry) : json :=
  JObj [("thought", JStr (thought t)); ("timestamp", JStr (thought_timestamp t))].

(** Reading a dict back as a [Turn]: exactly the three keys, in the order
    written, each holding a string. *)
Definition turn_of_json (j : json) : option Turn :=
  match j with
  | JObj [(k1, JStr r); (k2, JStr c); (k3, JStr t)] =>
      if String.eqb k1 "role" && String.eqb k2 "content"
         && String.eqb k3 "timestamp"
      then Some (mkTurn r c t) else None
  | _ => None
  end.

Definition thought_of_json (j : json) : option ThoughtEntry :=
  match j with
  | JObj [(k1, JStr th); (k2, JStr t)] =>
      if String.eqb k1 "thought" && String.eqb k2 "timestamp"
      then Some (mkThought th t) else None
  | _ => None
  end.

(** All entries of an array, or nothing when one of them does not read. *)
Fixpoint read_all {A : Type} (rd : json -> option A) (l : list json)
  : option (list A) :=
  match l with
  | [] => Some []
  | j :: l' =>
      match rd j, read_all rd l' with
      | Some a, Some r => Some (a :: r)
      | _, _ => None
      end
  end.

(* ------------------------------------------------------------------ *)
(** ** Vector images, as [svgwrite] holds them before saving *)

Inductive Element : Type :=
| Circle (center : Z * Z) (r : Z) (fill : string)
| Rect (insert : Z * Z) (size : Z * Z) (fill : string)
| Polygon (points : list (Z * Z)) (fill : string)
| Text (text : string) (insert : Z * Z) (text_anchor font_size : string).

Record Drawing : Type := mkDrawing {
  dwg_filename : string;
  dwg_size : string * string;
  dwg_elements : list Element
}.

(** [dwg.add(element)]. *)
Definition dwg_add (d : Drawing) (e : Element) : Drawing :=
  mkDrawing (dwg_filename d) (dwg_size d) (dwg_elements d ++ [e]).

(* ------------------------------------------------------------------ *)
(** ** The world outside the process *)

(** What [cache/conversations/memory.json] holds. *)
Inductive FileState : Type :=
| Absent
| Unparseable
| Document (j : json).

Record World : Type := mkWorld {
  memory_json : FileState;
  image_files : list (string * Drawing);   (* newest first *)
  clock_reads : nat;
  service_calls : nat
}.

(** What a call that may raise gives. *)
Inductive Outcome (A : Type) : Type :=
| Returns (a : A)
| Raises (str_e : string).
Arguments Returns {A} a.
Arguments Raises {A} str_e.

(** What [INKMemory()] and [INKAIEngine()] give: the object, an exception
    raised by [load_memory], or [OutsideModel] when the file parses but an
    entry of it is not a dict of the shape this program writes (Python keeps
    such a value and goes on; the records of this embedding cannot). *)
Inductive Construction (A : Type) : Type :=
| Built (a : A)
| Failed (exception : string)
| OutsideModel.
Arguments Built {A} a.
Arguments Failed {A} exception.
Arguments OutsideModel {A}.

(* ------------------------------------------------------------------ *)
(** ** A state monad for the methods *)

Definition M (S A : Type) : Type := S -> A * S.

Definition ret {S A : Type} (a : A) : M S A := fun s => (a, s).

Definition bind {S A B : Type} (c : M S A) (k : A -> M S B) : M S B :=
  fun s => let (a, s') := c s in k a s'.

Declare Scope monad_scope.
Delimit Scope monad_scope with monad.
Notation "x <- c ;; k" := (bind c (fun x => k))
  (at level 61, c at next level, right associativity) : monad_scope.
Notation "c ;; k" := (bind c (fun _ => k))
  (at level 61, right associativity) : monad_scope.
Open Scope monad_scope.

(* ------------------------------------------------------------------ *)
(** ** class INKMemory *)

Record INKMemory : Type := mkMemory {
  current_session : list Turn;
  thinking_log : list ThoughtEntry
}.

Definition MemState : Type := (INKMemory * World)%type.

Section Program.

(** [datetime.now().isoformat()] and [int(time.time())] at the n-th
    reading of the clock. *)
Variable isoformat_now : nat -> string.
Variable unix_seconds : nat -> Z.

(** [self.model.generate_content(prompt).text] at the n-th call of the
    remote service: the text, or the exception it raises. *)
Variable generate_content : nat -> string -> Outcome string.

(** Whether [genai.configure] followed by [genai.GenerativeModel] raises
    for a given key. *)
Variable genai_raises : string -> bool.

Definition now_isoformat : M World string :=
  fun w =>
    (isoformat_now (clock_reads w),
     mkWorld (memory_json w) (image_files w) (S (clock_reads w))
             (service_calls w)).

Definition now_seconds : M World Z :=
  fun w =>
    (unix_seconds (clock_reads w),
     mkWorld (memory_json w) (image_files w) (S (clock_reads w))
             (service_calls w)).

Definition write_memory_json (j : json) : M World unit :=
  fun w =>
    (tt, mkWorld (Document j) (image_files w) (clock_reads w)
                 (service_calls w)).

Definition in_world {A : Type} (c : M World A) : M MemState A :=
  fun '(m, w) => let (a, w') := c w in (a, (m, w')).

Definition get_memory : M MemState INKMemory := fun '(m, w) => (m, (m, w)).

Definition put_memory (m : INKMemory) : M MemState unit :=
  fun '(_, w) => (tt, (m, w)).

(** [load_memory], run on the object [__init__] has just filled in. *)
Definition load_memory (m : INKMemory) (w : World) : Construction INKMemory :=
  match memory_json w with
  | Absent => Built m
  | Unparseable => Failed "JSONDecodeError"
  | Document (JObj data) =>
      let session :=
        match dict_get "current_session" data with
        | None => Some []
        | Some (JArr l) => read_all turn_of_json l
        | Some _ => None
        end in
      let log :=
        match dict_get "thinking_log" data with
        | None => Some []
        | Some (JArr l) => read_all thought_of_json l
        | Some _ => None
        end in
      match session, log with
      | Some cs, Some tl => Built (mkMemory cs tl)
      | _, _ => OutsideModel
      end
  | Document _ => Failed "AttributeError"
  end.

Definition INKMemory_init (w : World) : Construction INKMemory :=
  load_memory (mkMemory [] []) w.

Definition snapshot (m : INKMemory) (last_updated : string) : json :=
  JObj [("current_session",
          JArr (map json_of_turn (Py.slice_from (-100) (current_session m))));
        ("thinking_log",
          JArr (map json_of_thought (Py.slice_from (-100) (thinking_log m))));
        ("last_updated", JStr last_updated)].

Definition save_memory : M MemState unit :=
  m <- get_memory ;;
  stamp <- in_world now_isoformat ;;
  in_world (write_memory_json (snapshot m stamp)).

Definition add_message (role content : string) : M MemState unit :=
  m <- get_memory ;;
  stamp <- in_world now_isoformat ;;
  put_memory (mkMemory (current_session m ++ [mkTurn role content stamp])
                       (thinking_log m)) ;;
  save_memory.

Definition add_thinking (thought : string) : M MemState unit :=
  m <- get_memory ;;
  stamp <- in_world now_isoformat ;;
  put_memory (mkMemory (current_session m)
                       (thinking_log m ++ [mkThought thought stamp])) ;;
  save_memory.

Definition get_context (limit : Z) : M MemState (list Turn) :=
  m <- get_memory ;;
  ret (Py.slice_from (- limit) (current_session m)).

Definition clear_session : M MemState unit :=
  put_memory (mkMemory [] []) ;;
  save_memory.

(* ------------------------------------------------------------------ *)
(** ** class INKAIEngine *)

(** The handle [genai.GenerativeModel(name)] returns. *)
Inductive GenerativeModel : Type := GenModel (name : string).

Record INKAIEngine : Type := mkEngine {
  api_key : string;
  model : option GenerativeModel;
  memory : INKMemory;
  training_mode : bool
}.

Definition EngineState : Type := (INKAIEngine * World)%type.

(** The two-field dict [generate_response] returns and [chat] sends. *)
Record Reply : Type := mkReply {
  response : string;
  thinking : string
}.

Definition get_engine : M EngineState INKAIEngine :=
  fun '(e, w) => (e, (e, w)).

(** A method of [self.memory] called from the engine. *)
Definition in_memory {A : Type} (c : M MemState A) : M EngineState A :=
  fun '(e, w) =>
    let '(a, (m', w')) := c (memory e, w) in
    (a, (mkEngine (api_key e) (model e) m' (training_mode e), w')).

Definition set_training_mode (b : bool) : M EngineState unit :=
  fun '(e, w) => (tt, (mkEngine (api_key e) (model e) (memory e) b, w)).

(** [self.model.generate_content(prompt).text], inside a [try]: on
    [None] the attribute access raises [AttributeError]. *)
Definition model_generate_text (mdl : option GenerativeModel)
    (prompt : string) : M EngineState (Outcome string) :=
  match mdl with
  | None =>
      ret (Raises "'NoneType' object has no attribute 'generate_content'")
  | Some _ =>
      fun '(e, w) =>
        (generate_content (service_calls w) prompt,
         (e, mkWorld (memory_json w) (image_files w) (clock_reads w)
                     (S (service_calls w))))
  end.

Definition initialize_model (e : INKAIEngine) : INKAIEngine :=
  if String.eqb (api_key e) "" then e
  else if genai_raises (api_key e) then e
  else mkEngine (api_key e) (Some (GenModel "gemini-2.5-flash"))
                (memory e) (training_mode e).

(** [INKAIEngine()], with [env_key] the value of
    [os.environ.get('GEMINI_API_KEY', '')]. *)
Definition INKAIEngine_init (env_key : string) (w : World)
  : Construction INKAIEngine :=
  match INKMemory_init w with
  | Built m => Built (initialize_model (mkEngine env_key None m false))
  | Failed x => Failed x
  | OutsideModel => OutsideModel
  end.

Definition response_prompt (context_text user_input : string) : string :=
  "Previous conversation:" ++ Py.nl ++ context_text ++ Py.nl ++ Py.nl
  ++ "User: " ++ user_input ++ Py.nl ++ Py.nl
  ++ "Respond as INK, an intelligent AI assistant. Be concise, accurate, and helpful. If asked to generate code, provide clean, working code. If asked to create an SVG, describe what you'd create.".

Definition generate_response (user_input : string) : M EngineState Reply :=
  self <- get_engine ;;
  match model self with
  | None =>
      ret (mkReply "Please configure GEMINI_API_KEY to use INK AI."
                   "Model not initialized - API key missing")
  | Some _ =>
      in_memory (add_thinking
        ("Processing user input: " ++ Py.str_to 50 user_input ++ "...")) ;;
      context <- in_memory (get_context 10) ;;
      let context_text :=
        Py.join Py.nl (map (fun m => role m ++ ": " ++ content m) context) in
      let prompt := response_prompt context_text user_input in
      in_memory (add_thinking "Generating response from Gemini...") ;;
      r <- model_generate_text (model self) prompt ;;
      match r with
      | Returns ai_response =>
          in_memory (add_message "user" user_input) ;;
          in_memory (add_message "assistant" ai_response) ;;
          in_memory (add_thinking "Response generated successfully") ;;
          m <- in_memory get_memory ;;
          ret (mkReply ai_response
                 (Py.join Py.nl
                    (map thought (Py.slice_from (-5) (thinking_log m)))))
      | Raises str_e =>
          let error_msg := "Error: " ++ str_e in
          in_memory (add_thinking error_msg) ;;
          ret (mkReply ("I encountered an error: " ++ str_e) error_msg)
      end
  end.

Definition code_prompt (description : string) : string :=
  "Generate clean, working, production-ready code for: " ++ description
  ++ Py.nl ++ Py.nl
  ++ "Provide only the code without explanations. Make it blazing fast and correct.".

Definition generate_code (description : string) : M EngineState string :=
  in_memory (add_thinking ("Code generation requested: " ++ description)) ;;
  let prompt := code_prompt description in
  self <- get_engine ;;
  r <- model_generate_text (model self) prompt ;;
  match r with
  | Returns code =>
      in_memory (add_thinking "Code generated successfully") ;;
      ret code
  | Raises str_e => ret ("Error generating code: " ++ str_e)
  end.

Definition train_mode (instruction : string) : M EngineState string :=
  set_training_mode true ;;
  in_memory (add_thinking ("Training instruction received: " ++ instruction)) ;;
  ret ("Training mode activated. Instruction: " ++ instruction).

(* ------------------------------------------------------------------ *)
(** ** generate_svg and the chat route *)

Definition star_points : list (Z * Z) :=
  [(200, 50); (230, 150); (350, 150); (250, 220); (280, 320);
   (200, 250); (120, 320); (150, 220); (50, 150); (170, 150)]%Z.

(** The drawing [generate_svg] has built when it reaches [dwg.save()]. *)
Definition svg_drawing (description filepath : string) : Drawing :=
  let dwg := mkDrawing filepath ("400px", "400px") [] in
  if Py.contains "circle" (Py.lower description) then
    dwg_add dwg (Circle (200, 200)%Z 100%Z "blue")
  else if Py.contains "rect" (Py.lower description)
          || Py.contains "square" (Py.lower description) then
    dwg_add dwg (Rect (100, 100)%Z (200, 200)%Z "green")
  else if Py.contains "star" (Py.lower description) then
    dwg_add dwg (Polygon star_points "gold")
  else
    let dwg := dwg_add dwg (Rect (50, 50)%Z (300, 300)%Z "lightgray") in
    dwg_add dwg (Text (Py.str_to 20 description) (200, 200)%Z "middle" "20px").

(** [dwg.save()]: the file at the drawing's path now holds the drawing. *)
Definition dwg_save (d : Drawing) : M World unit :=
  fun w =>
    (tt, mkWorld (memory_json w) ((dwg_filename d, d) :: image_files w)
                 (clock_reads w) (service_calls w)).

Definition generate_svg (description filename : string) : M World string :=
  let filepath := "cache/images/" ++ filename in
  dwg_save (svg_drawing description filepath) ;;
  ret filepath.

(** A module-level function called from the route, which holds the global
    [ink_engine]. *)
Definition outside {A : Type} (c : M World A) : M EngineState A :=
  fun '(e, w) => let (a, w') := c w in (a, (e, w')).

(** The four command branches of [chat], each from the message to the
    dict handed to [jsonify]. *)
Definition chat_train (user_message : string) : M EngineState Reply :=
  let instruction := Py.strip (Py.str_from 7 user_message) in
  response <- train_mode instruction ;;
  ret (mkReply response "Entering training mode").

Definition chat_code (user_message : string) : M EngineState Reply :=
  let description := Py.strip (Py.str_from 6 user_message) in
  response <- generate_code description ;;
  ret (mkReply response "Generating code").

Definition chat_svg (user_message : string) : M EngineState Reply :=
  let description := Py.strip (Py.str_from 5 user_message) in
  seconds <- outside now_seconds ;;
  let filename := "svg_" ++ Py.str_of_int seconds ++ ".svg" in
  filepath <- outside (generate_svg description filename) ;;
  ret (mkReply ("SVG created! View it at: /images/" ++ filename)
               "Generating SVG image").

Definition chat_clear : M EngineState Reply :=
  in_memory clear_session ;;
  ret (mkReply "Memory cleared!" "Session reset").

(** [chat]: the [if]/[elif] chain over the message taken out of the
    request. *)
Definition chat (user_message : string) : M EngineState Reply :=
  if Py.startswith user_message "/train" then chat_train user_message
  else if Py.startswith user_message "/code" then chat_code user_message
  else if Py.startswith user_message "/svg" then chat_svg user_message
  else if Py.startswith user_message "/clear" then chat_clear
  else generate_response user_message.

End Program.

(* ------------------------------------------------------------------ *)
(** ** Vocabulary of the statements *)

(** The state a computation leaves and the value it gives. *)
Definition exec {S A : Type} (c : M S A) (s : S) : S := snd (c s).
Definition eval {S A : Type} (c : M S A) (s : S) : A := fst (c s).

(** The most recent [n] entries of a sequence, oldest first. *)
Definition lastn {A : Type} (n : nat) (l : list A) : list A :=
  skipn (List.length l - n) l.

(** A member of the snapshot on disk. *)
Definition snapshot_field (key : string) (w : World) : option json :=
  match memory_json w with
  | Document (JObj d) => dict_get key d
  | _ => None
  end.

Definition snapshot_turns : World -> option json :=
  snapshot_field "current_session".

Definition snapshot_thoughts : World -> option json :=
  snapshot_field "thinking_log".

(** The two appending operations of the store, and a run of them. *)
Inductive Append : Type :=
| AppendTurn (role content : string)
| AppendThought (thought : string).

Definition run_append (iso : nat -> string) (op : Append) : M MemState unit :=
  match op with
  | AppendTurn r c => add_message iso r c
  | AppendThought t => add_thinking iso t
  end.

Fixpoint run_appends (iso : nat -> string) (ops : list Append)
  : M MemState unit :=
  match ops with
  | [] => ret tt
  | op :: rest => run_append iso op ;; run_appends iso rest
  end.

(** Role and content of the turns a run appends, in order. *)
Fixpoint turns_of (ops : list Append) : list (string * string) :=
  match ops with
  | [] => []
  | AppendTurn r c :: rest => (r, c) :: turns_of rest
  | AppendThought _ :: rest => turns_of rest
  end.

Fixpoint thoughts_of (ops : list Append) : list string :=
  match ops with
  | [] => []
  | AppendTurn _ _ :: rest => thoughts_of rest
  | AppendThought t :: rest => t :: thoughts_of rest
  end.


(** The world after a save of [m] that read the clock at [n]. *)
Definition saved_world (iso : nat -> string) (m : INKMemory) (n : nat)
    (w : World) : World :=
  mkWorld (Document (snapshot m (iso n))) (image_files w) (S n)
          (service_calls w).

(** The file is the snapshot of the store as it stands. *)
Definition in_sync (s : MemState) : Prop :=
  exists stamp, memory_json (snd s) = Document (snapshot (fst s) stamp).

(** The engine with its memory replaced. *)
Definition with_memory (e : INKAIEngine) (m : INKMemory) : INKAIEngine :=
  mkEngine (api_key e) (model e) m (training_mode e).

(** The world after one more call of the remote service. *)
Definition called (w : World) : World :=
  mkWorld (memory_json w) (image_files w) (clock_reads w) (S (service_calls w)).

(** The two fixed texts of the guard in [generate_response]. *)
Definition refusal_text : string :=
  "Please configure GEMINI_API_KEY to use INK AI.".

Definition refusal_diagnostic : string :=
  "Model not initialized - API key missing".

(** The message begins with exactly the characters of [p]. *)
Definition begins_with (p s : string) : Prop := exists rest, s = p ++ rest.

(** The five routes of the dispatcher, and the route a message takes when
    the prefixes are tried in the order train, code, svg, clear. *)
Inductive Route : Type :=
| RouteTrain
| RouteCode
| RouteSvg
| RouteClear
| RouteChat.

Inductive selects (msg : string) : Route -> Prop :=
| selects_train :
    begins_with "/train" msg -> selects msg RouteTrain
| selects_code :
    ~ begins_with "/train" msg -> begins_with "/code" msg ->
    selects msg RouteCode
| selects_svg :
    ~ begins_with "/train" msg -> ~ begins_with "/code" msg ->
    begins_with "/svg" msg -> selects msg RouteSvg
| selects_clear :
    ~ begins_with "/train" msg -> ~ begins_with "/code" msg ->
    ~ begins_with "/svg" msg -> begins_with "/clear" msg ->
    selects msg RouteClear
| selects_chat :
    ~ begins_with "/train" msg -> ~ begins_with "/code" msg ->
    ~ begins_with "/svg" msg -> ~ begins_with "/clear" msg ->
    selects msg RouteChat.

(** What each route runs. *)
Definition run_route (iso : nat -> string) (secs : nat -> Z)
    (svc : nat -> string -> Outcome string) (r : Route) (msg : string)
  : M EngineState Reply :=
  match r with
  | RouteTrain => chat_train iso msg
  | RouteCode => chat_code iso svc msg
  | RouteSvg => chat_svg secs msg
  | RouteClear => chat_clear iso
  | RouteChat => generate_response iso svc msg
  end.

(** The description contains [word] in some mix of letter cases. *)
Definition mentions (word description : string) : Prop :=
  exists before hit after,
    description = before ++ hit ++ after /\ Py.lower hit = word.

(** The four shapes of the image emitter, and the shape a description gets
    when the words are tried in the order circle, rect or square, star. *)
Inductive Shape : Type :=
| ShapeCircle
| ShapeRectangle
| ShapeStar
| ShapeLabel.

Inductive classified (d : string) : Shape -> Prop :=
| classified_circle :
    mentions "circle" d -> classified d ShapeCircle
| classified_rectangle :
    ~ mentions "circle" d -> mentions "rect" d \/ mentions "square" d ->
    classified d ShapeRectangle
| classified_star :
    ~ mentions "circle" d -> ~ mentions "rect" d -> ~ mentions "square" d ->
    mentions "star" d -> classified d ShapeStar
| classified_label :
    ~ mentions "circle" d -> ~ mentions "rect" d -> ~ mentions "square" d ->
    ~ mentions "star" d -> classified d ShapeLabel.

(** What the image of each shape holds. *)
Definition shape_elements (s : Shape) (d : string) : list Element :=
  match s with
  | ShapeCircle => [Circle (200, 200)%Z 100%Z "blue"]
  | ShapeRectangle => [Rect (100, 100)%Z (200, 200)%Z "green"]
  | ShapeStar => [Polygon star_points "gold"]
  | ShapeLabel =>
      [Rect (50, 50)%Z (300, 300)%Z "lightgray";
       Text (substring 0 20 d) (200, 200)%Z "middle" "20px"]
  end.

(** The world after an image file has been written. *)
Definition with_image (path : string) (d : Drawing) (w : World) : World :=
  mkWorld (memory_json w) ((path, d) :: image_files w) (clock_reads w)
          (service_calls w).

(* ------------------------------------------------------------------ *)
(** ** Sample inputs *)

Module Sample.

(** A clock that prints its reading number, and the seconds to match. *)
Definition iso (n : nat) : string := "T" ++ Py.str_of_int (Z.of_nat n).
Definition secs (n : nat) : Z := (1700000000 + Z.of_nat n)%Z.

(** A remote service that answers, and one that is out of quota. *)
Definition answering (n : nat) (prompt : string) : Outcome string :=
  Returns "Hello from INK".
Definition failing (n : nat) (prompt : string) : Outcome string :=
  Raises "429 quota exceeded".

Definition world : World := mkWorld Absent [] 0 0.

Definition two_turns : INKMemory :=
  mkMemory [mkTurn "user" "hi" "T0"; mkTurn "assistant" "hello" "T1"]
           [mkThought "Processing user input: hi..." "T2"].

Definition with_key : INKAIEngine :=
  mkEngine "secret" (Some (GenModel "gemini-2.5-flash")) two_turns false.

Definition without_key : INKAIEngine :=
  mkEngine "" None two_turns false.

(** 101 user turns with one thought in the middle. *)
Definition long_run : list Append :=
  (map (fun n => AppendTurn "user" (Py.str_of_int (Z.of_nat n))) (seq 0 60)
   ++ [AppendThought "half way"]
   ++ map (fun n => AppendTurn "user" (Py.str_of_int (Z.of_nat n))) (seq 60 41))%list.

End Sample.

(* ------------------------------------------------------------------ *)
(** ** The thinking route, runs of messages, and files read back *)

(** [get_thinking]: the text handed to [jsonify]. *)
Definition get_thinking : M EngineState string :=
  self <- get_engine ;;
  ret (Py.join Py.nl
         (map thought (Py.slice_from (-10) (thinking_log (memory self))))).

(** The messages of successive [POST /api/chat] requests, served in order
    by the one global engine. *)
Fixpoint run_chats (iso : nat -> string) (secs : nat -> Z)
    (svc : nat -> string -> Outcome string) (msgs : list string)
  : M EngineState (list Reply) :=
  match msgs with
  | [] => ret []
  | msg :: rest =>
      r <- chat iso secs svc msg ;;
      rs <- run_chats iso secs svc rest ;;
      ret (r :: rs)
  end.

(** What the file at [path] holds: the newest drawing saved there. *)
Fixpoint newest (path : string) (files : list (string * Drawing))
  : option Drawing :=
  match files with
  | [] => None
  | (p, d) :: older => if String.eqb p path then Some d else newest path older
  end.

Definition image_at (path : string) (w : World) : option Drawing :=
  newest path (image_files w).

(** The object [data] gives the sequence [l] under [key]: as the array of
    its entries, or by not having the key when [l] is empty. *)
Definition field_gives {A : Type} (enc : A -> json) (key : string)
    (data : list (string * json)) (l : list A) : Prop :=
  dict_get key data = Some (JArr (map enc l))
  \/ (dict_get key data = None /\ l = []).

(** No whitespace at either end. *)
Definition trimmed (s : string) : Prop :=
  forall (c : ascii) (rest : string),
    (s = String c rest -> Py.isspace c = false)
    /\ (s = rest ++ String c EmptyString -> Py.isspace c = false).

(** Only whitespace. *)
Fixpoint blank (s : string) : bool :=
  match s with
  | EmptyString => true
  | String c s' => Py.isspace c && blank s'
  end.

(** The three thoughts and two turns of an exchange that starts when the
    clock has been read [n] times. *)
Definition exchange_thoughts (iso : nat -> string) (n : nat)
    (user_input : string) : list ThoughtEntry :=
  [mkThought ("Processing user input: " ++ Py.str_to 50 user_input ++ "...")
             (iso n);
   mkThought "Generating response from Gemini..." (iso (n + 2));
   mkThought "Response generated successfully" (iso (n + 8))].

Definition exchange_turns (iso : nat -> string) (n : nat)
    (user_input ai_response : string) : list Turn :=
  [mkTurn "user" user_input (iso (n + 4));
   mkTurn "assistant" ai_response (iso (n + 6))].

(** The three thoughts of an exchange the service refused with [str_e]. *)
Definition failure_thoughts (iso : nat -> string) (n : nat)
    (user_input str_e : string) : list ThoughtEntry :=
  [mkThought ("Processing user input: " ++ Py.str_to 50 user_input ++ "...")
             (iso n);
   mkThought "Generating response from Gemini..." (iso (n + 2));
   mkThought ("Error: " ++ str_e) (iso (n + 4))].

(** The world after one more reading of the clock. *)
Definition ticked (w : World) : World :=
  mkWorld (memory_json w) (image_files w) (S (clock_reads w))
          (service_calls w).

(** The name [chat] gives the image of a request made at the second
    [seconds], and the path [generate_svg] saves it under. *)
Definition svg_name (seconds : Z) : string :=
  "svg_" ++ Py.str_of_int seconds ++ ".svg".

Definition svg_path (seconds : Z) : string :=
  "cache/images/" ++ svg_name seconds.

Module Sample2.

Definition corrupt : World := mkWorld Unparseable [] 0 0.

Definition bare_object : World :=
  mkWorld (Document (JObj [("version", JNum 2)])) [] 0 0.

Definition accepting (key : string) : bool := false.

Definition messages : list string :=
  ["hello"; "/train be brief"; "/svg a circle"; "/code sort"; "/clear"; "bye"].



(** The world after the sample store was saved. *)
Definition saved : World := saved_world Sample.iso Sample.two_turns 0 Sample.world.

(** Engines whose sessions differ only in turns older than the last ten. *)
Definition numbered_turns (from count : nat) : list Turn :=
  map (fun n => mkTurn "user" (Py.str_of_int (Z.of_nat n)) "T0") (seq from count).

Definition long_memory : INKAIEngine :=
  mkEngine "secret" (Some (GenModel "gemini-2.5-flash"))
           (mkMemory (numbered_turns 0 25) []) false.

Definition short_memory : INKAIEngine :=
  mkEngine "secret" (Some (GenModel "gemini-2.5-flash"))
           (mkMemory (numbered_turns 15 10) [mkThought "resumed" "T3"]) false.

(** A clock whose seconds do not move. *)
Definition frozen (n : nat) : Z := 1700000000%Z.

End Sample2.
(* ------------------------------------------------------------------ *)
(** ** Slices *)

Section Slices.

Context {A : Type}.
Implicit Types l : list A.

Lemma slice_from_negative (k : nat) l :
  0 < k -> Py.slice_from (- Z.of_nat k) l = lastn k l.
Proof.
  intros Hk. unfold Py.slice_from, lastn.
  replace (- Z.of_nat k <? 0)%Z with true by (symmetry; apply Z.ltb_lt; lia).
  f_equal. lia.
Qed.

Lemma slice_from_zero l : Py.slice_from 0 l = l.
Proof.
  unfold Py.slice_from. cbn [Z.ltb Z.compare].
  rewrite Z.min_l by lia. reflexivity.
Qed.

Lemma slice_from_lastn_100 l : Py.slice_from (-100) l = lastn 100 l.
Proof. exact (slice_from_negative 100 l ltac:(lia)). Qed.

Lemma slice_from_lastn_10 l : Py.slice_from (-10) l = lastn 10 l.
Proof. exact (slice_from_negative 10 l ltac:(lia)). Qed.

Lemma lastn_length (n : nat) l :
  List.length (lastn n l) = Nat.min n (List.length l).
Proof. unfold lastn. rewrite length_skipn. lia. Qed.

Lemma lastn_all (n : nat) l : List.length l <= n -> lastn n l = l.
Proof.
  intros H. unfold lastn.
  replace (List.length l - n) with 0 by lia. reflexivity.
Qed.

Lemma lastn_nil (n : nat) : lastn n (@nil A) = [].
Proof. unfold lastn. apply skipn_nil. Qed.

Lemma lastn_zero l : lastn 0 l = [].
Proof. unfold lastn. rewrite Nat.sub_0_r. apply skipn_all. Qed.

(** Entries older than the window do not reach it. *)
Lemma lastn_app (n : nat) (old new : list A) :
  n <= List.length new -> lastn n (old ++ new) = lastn n new.
Proof.
  intros H. unfold lastn. rewrite length_app, skipn_app.
  replace (List.length old + List.length new - n - List.length old)
    with (List.length new - n) by lia.
  rewrite skipn_all2 by lia. reflexivity.
Qed.

(** The window is a suffix: what it leaves out comes first. *)
Lemma lastn_suffix (n : nat) l : exists dropped, l = (dropped ++ lastn n l)%list.
Proof.
  exists (firstn (List.length l - n) l). unfold lastn.
  symmetry. apply firstn_skipn.
Qed.

Lemma slice_from_nil (start : Z) : Py.slice_from start (@nil A) = [].
Proof. unfold Py.slice_from. apply skipn_nil. Qed.

End Slices.

(* ------------------------------------------------------------------ *)
(** ** The conversation store *)

Section Store.

Variable iso : nat -> string.

Lemma save_memory_eq (m : INKMemory) (w : World) :
  save_memory iso (m, w) = (tt, (m, saved_world iso m (clock_reads w) w)).
Proof. reflexivity. Qed.

Lemma add_message_eq (r c : string) (m : INKMemory) (w : World) :
  let m' := mkMemory (current_session m ++ [mkTurn r c (iso (clock_reads w))])
                     (thinking_log m) in
  add_message iso r c (m, w)
  = (tt, (m', saved_world iso m' (S (clock_reads w)) w)).
Proof. reflexivity. Qed.

Lemma add_thinking_eq (t : string) (m : INKMemory) (w : World) :
  let m' := mkMemory (current_session m)
                     (thinking_log m ++ [mkThought t (iso (clock_reads w))]) in
  add_thinking iso t (m, w)
  = (tt, (m', saved_world iso m' (S (clock_reads w)) w)).
Proof. reflexivity. Qed.

Lemma clear_session_eq (m : INKMemory) (w : World) :
  clear_session iso (m, w)
  = (tt, (mkMemory [] [], saved_world iso (mkMemory [] []) (clock_reads w) w)).
Proof. reflexivity. Qed.

Lemma get_context_eq (limit : Z) (m : INKMemory) (w : World) :
  get_context limit (m, w)
  = (Py.slice_from (- limit) (current_session m), (m, w)).
Proof. reflexivity. Qed.

Lemma in_sync_saved (m : INKMemory) (n : nat) (w : World) :
  in_sync (m, saved_world iso m n w).
Proof. exists (iso n). reflexivity. Qed.

Lemma run_append_in_sync (op : Append) (s : MemState) :
  in_sync (exec (run_append iso op) s).
Proof.
  destruct s as [m w], op as [r c | t]; unfold exec; cbn [run_append].
  - rewrite add_message_eq. apply in_sync_saved.
  - rewrite add_thinking_eq. apply in_sync_saved.
Qed.

Lemma run_appends_cons (op : Append) (ops : list Append) (s : MemState) :
  exec (run_appends iso (op :: ops)) s
  = exec (run_appends iso ops) (exec (run_append iso op) s).
Proof.
  unfold exec. cbn [run_appends]. unfold bind.
  destruct (run_append iso op s) as [u s1]. reflexivity.
Qed.

Lemma run_appends_in_sync (ops : list Append) (s : MemState) :
  in_sync s -> in_sync (exec (run_appends iso ops) s).
Proof.
  revert s. induction ops as [| op ops IH]; intros s Hs.
  - exact Hs.
  - rewrite run_appends_cons. apply IH, run_append_in_sync.
Qed.

(** What a run adds to the two sequences. *)
Lemma run_append_grows (op : Append) (s : MemState) :
  exists new_turns new_thoughts,
    current_session (fst (exec (run_append iso op) s))
      = (current_session (fst s) ++ new_turns)%list
    /\ thinking_log (fst (exec (run_append iso op) s))
      = (thinking_log (fst s) ++ new_thoughts)%list
    /\ map (fun t => (role t, content t)) new_turns = turns_of [op]
    /\ map thought new_thoughts = thoughts_of [op].
Proof.
  destruct s as [m w], op as [r c | t]; unfold exec; cbn [run_append].
  - rewrite add_message_eq. cbn.
    exists [mkTurn r c (iso (clock_reads w))], [].
    rewrite app_nil_r. repeat split.
  - rewrite add_thinking_eq. cbn.
    exists [], [mkThought t (iso (clock_reads w))].
    rewrite app_nil_r. repeat split.
Qed.

Lemma turns_of_cons (op : Append) (ops : list Append) :
  turns_of (op :: ops) = (turns_of [op] ++ turns_of ops)%list.
Proof. destruct op; reflexivity. Qed.

Lemma thoughts_of_cons (op : Append) (ops : list Append) :
  thoughts_of (op :: ops) = (thoughts_of [op] ++ thoughts_of ops)%list.
Proof. destruct op; reflexivity. Qed.

Lemma run_appends_grows (ops : list Append) (s : MemState) :
  exists new_turns new_thoughts,
    current_session (fst (exec (run_appends iso ops) s))
      = (current_session (fst s) ++ new_turns)%list
    /\ thinking_log (fst (exec (run_appends iso ops) s))
      = (thinking_log (fst s) ++ new_thoughts)%list
    /\ map (fun t => (role t, content t)) new_turns = turns_of ops
    /\ map thought new_thoughts = thoughts_of ops.
Proof.
  revert s. induction ops as [| op ops IH]; intros s.
  - exists [], []. cbn. rewrite !app_nil_r. repeat split.
  - rewrite run_appends_cons.
    destruct (run_append_grows op s) as (t1 & h1 & Hc1 & Hl1 & Ht1 & Hh1).
    destruct (IH (exec (run_append iso op) s)) as (t2 & h2 & Hc2 & Hl2 & Ht2 & Hh2).
    exists (t1 ++ t2)%list, (h1 ++ h2)%list.
    rewrite Hc2, Hl2, Hc1, Hl1, <- !app_assoc, !map_app, Ht1, Ht2, Hh1, Hh2.
    rewrite <- turns_of_cons, <- thoughts_of_cons. repeat split.
Qed.

Lemma in_sync_fields (s : MemState) :
  in_sync s ->
  snapshot_turns (snd s)
    = Some (JArr (map json_of_turn (lastn 100 (current_session (fst s)))))
  /\ snapshot_thoughts (snd s)
    = Some (JArr (map json_of_thought (lastn 100 (thinking_log (fst s))))).
Proof.
  intros [stamp H]. unfold snapshot_turns, snapshot_thoughts, snapshot_field.
  rewrite H. unfold snapshot. rewrite !slice_from_lastn_100. split; reflexivity.
Qed.

End Store.

(* ------------------------------------------------------------------ *)
(** ** Reading a snapshot back *)

Lemma turn_of_json_of_turn (t : Turn) : turn_of_json (json_of_turn t) = Some t.
Proof. destruct t. reflexivity. Qed.

Lemma thought_of_json_of_thought (t : ThoughtEntry) :
  thought_of_json (json_of_thought t) = Some t.
Proof. destruct t. reflexivity. Qed.

Lemma read_all_map {A : Type} (wr : A -> json) (rd : json -> option A) :
  (forall a, rd (wr a) = Some a) ->
  forall l, read_all rd (map wr l) = Some l.
Proof.
  intros Hrw. induction l as [| a l IH]; cbn.
  - reflexivity.
  - rewrite Hrw, IH. reflexivity.
Qed.

Lemma load_saved (iso : nat -> string) (m m0 : INKMemory) (n : nat) (w : World) :
  load_memory m0 (saved_world iso m n w)
  = Built (mkMemory (lastn 100 (current_session m))
                    (lastn 100 (thinking_log m))).
Proof.
  unfold load_memory, saved_world, snapshot. cbn.
  rewrite !slice_from_lastn_100.
  rewrite (read_all_map _ _ turn_of_json_of_turn).
  rewrite (read_all_map _ _ thought_of_json_of_thought).
  reflexivity.
Qed.

(* ------------------------------------------------------------------ *)
(** ** Statements about the conversation store *)

(** C1.  After any non-empty run of [add_message] and [add_thinking] calls,
    from any store, the snapshot on disk holds the most recent 100 turns
    and the most recent 100 thoughts of the store (so at most 100 of
    each).  When the run appended more than 100 turns, the snapshot's turn
    array is exactly the last 100 of the turns appended, in the order of
    the calls, with the roles and contents given. *)
Theorem snapshot_holds_recent_window :
  forall (iso : nat -> string) (ops : list Append) (m : INKMemory) (w : World),
    ops <> [] ->
    let s' := exec (run_appends iso ops) (m, w) in
    (snapshot_turns (snd s')
       = Some (JArr (map json_of_turn (lastn 100 (current_session (fst s')))))
     /\ snapshot_thoughts (snd s')
       = Some (JArr (map json_of_thought (lastn 100 (thinking_log (fst s')))))
     /\ List.length (lastn 100 (current_session (fst s'))) <= 100
     /\ List.length (lastn 100 (thinking_log (fst s'))) <= 100)
    /\ (100 < List.length (turns_of ops) ->
        exists appended,
          current_session (fst s') = (current_session m ++ appended)%list
          /\ map (fun t => (role t, content t)) appended = turns_of ops
          /\ snapshot_turns (snd s')
             = Some (JArr (map json_of_turn (lastn 100 appended)))
          /\ List.length (lastn 100 appended) = 100).
Proof.
  intros iso ops m w Hops s'.
  assert (Hsync : in_sync s').
  { destruct ops as [| op ops]; [congruence |].
    subst s'. rewrite run_appends_cons.
    apply run_appends_in_sync, run_append_in_sync. }
  destruct (in_sync_fields _ Hsync) as [Hturns Hthoughts].
  split.
  - repeat split; try assumption; rewrite lastn_length; lia.
  - intros Hmany.
    destruct (run_appends_grows iso ops (m, w))
      as (appended & thoughts & Hc & _ & Hrc & _).
    fold s' in Hc. cbn [fst] in Hc.
    assert (Hlen : List.length appended = List.length (turns_of ops))
      by (rewrite <- Hrc, length_map; reflexivity).
    exists appended. repeat split; try assumption.
    + rewrite Hturns, Hc, lastn_app by lia. reflexivity.
    + rewrite lastn_length. lia.
Qed.

(** C2.  Saving a store that holds at most 100 turns and constructing a
    fresh [INKMemory] from the file succeeds and gives the same turns:
    same roles, contents and timestamps, in the same order. *)
Theorem save_then_load_restores_turns :
  forall (iso : nat -> string) (m : INKMemory) (w : World),
    List.length (current_session m) <= 100 ->
    exists m',
      INKMemory_init (snd (exec (save_memory iso) (m, w))) = Built m'
      /\ current_session m' = current_session m
      /\ map role (current_session m') = map role (current_session m)
      /\ map content (current_session m') = map content (current_session m)
      /\ map timestamp (current_session m') = map timestamp (current_session m).
Proof.
  intros iso m w Hk.
  exists (mkMemory (current_session m) (lastn 100 (thinking_log m))).
  unfold exec, INKMemory_init. rewrite save_memory_eq. cbn [snd].
  rewrite load_saved, (lastn_all 100 (current_session m)) by exact Hk.
  repeat split.
Qed.

(** C8.  From any store, [clear_session] leaves both sequences empty and
    writes a snapshot whose two arrays are empty; [get_context] afterwards
    gives the empty list for every limit and changes nothing. *)
Theorem clear_session_empties_store :
  forall (iso : nat -> string) (m : INKMemory) (w : World) (limit : Z),
    let s' := exec (clear_session iso) (m, w) in
    current_session (fst s') = []
    /\ thinking_log (fst s') = []
    /\ eval (get_context limit) s' = []
    /\ exec (get_context limit) s' = s'
    /\ snapshot_turns (snd s') = Some (JArr [])
    /\ snapshot_thoughts (snd s') = Some (JArr []).
Proof.
  intros iso m w limit s'. subst s'. unfold exec, eval.
  rewrite clear_session_eq. cbn [snd fst].
  rewrite get_context_eq. cbn [fst snd current_session].
  rewrite slice_from_nil. repeat split.
Qed.

(** C10.  On a store with at least one turn, [get_context(0)] gives the
    whole turn sequence: not the empty list, which is what the last 0
    turns are.  For a positive limit it gives the last [limit] turns. *)
Theorem get_context_zero_gives_everything :
  forall (m : INKMemory) (w : World),
    current_session m <> [] ->
    eval (get_context 0) (m, w) = current_session m
    /\ eval (get_context 0) (m, w) <> []
    /\ eval (get_context 0) (m, w) <> lastn 0 (current_session m)
    /\ (forall k : nat, 0 < k ->
          eval (get_context (Z.of_nat k)) (m, w) = lastn k (current_session m)).
Proof.
  intros m w Hne. unfold eval. rewrite get_context_eq. cbn [fst].
  change (- 0)%Z with 0%Z. rewrite slice_from_zero, lastn_zero.
  repeat split; try assumption.
  intros k Hk. rewrite get_context_eq. cbn [fst].
  apply slice_from_negative, Hk.
Qed.

(* ------------------------------------------------------------------ *)
(** ** The response engine *)

(** One step of a computation whose first action is known. *)
Lemma bind_run {S A B : Type} (c : M S A) (k : A -> M S B) (s s' : S) (a : A) :
  c s = (a, s') -> bind c k s = k a s'.
Proof. intros H. unfold bind. rewrite H. reflexivity. Qed.

Ltac run_with lem :=
  erewrite bind_run by (apply lem); cbv beta.

Section Engine.

Variable iso : nat -> string.
Variable svc : nat -> string -> Outcome string.

Lemma in_memory_add_thinking (t : string) (e : INKAIEngine) (w : World) :
  let m' := mkMemory (current_session (memory e))
              (thinking_log (memory e) ++ [mkThought t (iso (clock_reads w))]) in
  in_memory (add_thinking iso t) (e, w)
  = (tt, (with_memory e m', saved_world iso m' (S (clock_reads w)) w)).
Proof. reflexivity. Qed.

Lemma in_memory_add_message (r c : string) (e : INKAIEngine) (w : World) :
  let m' := mkMemory
              (current_session (memory e) ++ [mkTurn r c (iso (clock_reads w))])
              (thinking_log (memory e)) in
  in_memory (add_message iso r c) (e, w)
  = (tt, (with_memory e m', saved_world iso m' (S (clock_reads w)) w)).
Proof. reflexivity. Qed.

Lemma in_memory_get_context (limit : Z) (e : INKAIEngine) (w : World) :
  in_memory (get_context limit) (e, w)
  = (Py.slice_from (- limit) (current_session (memory e)), (e, w)).
Proof. destruct e. reflexivity. Qed.

Lemma get_engine_eq (e : INKAIEngine) (w : World) :
  get_engine (e, w) = (e, (e, w)).
Proof. reflexivity. Qed.

Lemma model_generate_text_eq (g : GenerativeModel) (prompt : string)
    (e : INKAIEngine) (w : World) :
  model_generate_text svc (Some g) prompt (e, w)
  = (svc (service_calls w) prompt, (e, called w)).
Proof. reflexivity. Qed.

Lemma engine_without_key_has_no_model
    (raises : string -> bool) (w : World) (e : INKAIEngine) :
  INKAIEngine_init raises "" w = Built e -> model e = None.
Proof.
  unfold INKAIEngine_init. destruct (INKMemory_init w); try discriminate.
  unfold initialize_model. cbn. intros [= <-]. reflexivity.
Qed.

(** C4.  When the engine holds no model, [generate_response] gives, for
    every input, the fixed text asking for the key together with the fixed
    diagnostic, and leaves the engine and the world as they were: no turn,
    no thought, no write of the snapshot. *)
Theorem generate_response_without_model :
  forall (user_input : string) (e : INKAIEngine) (w : World),
    model e = None ->
    generate_response iso svc user_input (e, w)
    = (mkReply refusal_text refusal_diagnostic, (e, w)).
Proof.
  intros user_input e w Hnone.
  unfold generate_response, bind, get_engine. rewrite Hnone. reflexivity.
Qed.

(** C5.  When the engine holds a model and the remote call made by
    [generate_response] raises, the method returns normally: the response
    embeds the error text, the diagnostic is the same error text behind
    the [Error: ] label, a thought with that diagnostic is the last of the
    three thoughts recorded, and the turn sequence, in the store and in
    the snapshot, is the one from before the call. *)
Theorem generate_response_absorbs_failure :
  forall (user_input str_e : string) (g : GenerativeModel)
         (e : INKAIEngine) (w : World),
    model e = Some g ->
    svc (service_calls w)
        (response_prompt
           (Py.join Py.nl
              (map (fun t => role t ++ ": " ++ content t)
                   (lastn 10 (current_session (memory e)))))
           user_input)
      = Raises str_e ->
    let n := clock_reads w in
    let m' :=
      mkMemory (current_session (memory e))
        (thinking_log (memory e)
         ++ [mkThought ("Processing user input: "
                        ++ Py.str_to 50 user_input ++ "...") (iso n);
             mkThought "Generating response from Gemini..." (iso (n + 2));
             mkThought ("Error: " ++ str_e) (iso (n + 4))]) in
    generate_response iso svc user_input (e, w)
    = (mkReply ("I encountered an error: " ++ str_e) ("Error: " ++ str_e),
       (with_memory e m', saved_world iso m' (n + 5) (called w)))
    /\ snapshot_turns (saved_world iso m' (n + 5) (called w))
       = Some (JArr (map json_of_turn (lastn 100 (current_session (memory e))))).
Proof.
  intros user_input str_e g e w Hmodel Hfail n m'.
  rewrite <- slice_from_lastn_10 in Hfail.
  split.
  - unfold generate_response.
    run_with (get_engine_eq e w). rewrite Hmodel.
    run_with in_memory_add_thinking.
    run_with in_memory_get_context.
    run_with in_memory_add_thinking.
    run_with (model_generate_text_eq g).
    cbn [memory with_memory current_session service_calls saved_world].
    change (Z.opp 10) with (-10)%Z. rewrite Hfail.
    run_with in_memory_add_thinking.
    unfold ret. subst m' n.
    cbn [memory with_memory current_session thinking_log clock_reads
         saved_world called api_key model training_mode image_files
         service_calls].
    rewrite <- !app_assoc. cbn [app].
    replace (clock_reads w + 2) with (S (S (clock_reads w))) by lia.
    replace (clock_reads w + 4) with (S (S (S (S (clock_reads w))))) by lia.
    replace (clock_reads w + 5) with (S (S (S (S (S (clock_reads w)))))) by lia.
    reflexivity.
  - unfold snapshot_turns, snapshot_field, saved_world, snapshot.
    cbn [memory_json dict_get]. cbn. rewrite slice_from_lastn_100.
    reflexivity.
Qed.

(** C9.  When the engine holds no model, [generate_response] gives the
    fixed text asking for the key, but [generate_code] does not: after
    recording its thought it reaches [self.model.generate_content] on
    [None], and what it returns is the caught [AttributeError] behind the
    [Error generating code: ] label.  Neither call raises. *)
Theorem generate_code_without_model :
  forall (description : string) (e : INKAIEngine) (w : World),
    model e = None ->
    let m' :=
      mkMemory (current_session (memory e))
        (thinking_log (memory e)
         ++ [mkThought ("Code generation requested: " ++ description)
                       (iso (clock_reads w))]) in
    generate_code iso svc description (e, w)
    = ("Error generating code: 'NoneType' object has no attribute 'generate_content'",
       (with_memory e m', saved_world iso m' (S (clock_reads w)) w))
    /\ eval (generate_code iso svc description) (e, w) <> refusal_text
    /\ eval (generate_response iso svc description) (e, w)
       = mkReply refusal_text refusal_diagnostic.
Proof.
  intros description e w Hnone m'.
  assert (Hrun : generate_code iso svc description (e, w)
    = ("Error generating code: 'NoneType' object has no attribute 'generate_content'",
       (with_memory e m', saved_world iso m' (S (clock_reads w)) w))).
  { unfold generate_code, bind. rewrite in_memory_add_thinking.
    cbn [get_engine with_memory model]. rewrite Hnone. reflexivity. }
  split; [exact Hrun | split].
  - unfold eval. rewrite Hrun. cbn [fst]. unfold refusal_text. discriminate.
  - unfold eval, generate_response, bind, get_engine. rewrite Hnone. reflexivity.
Qed.

End Engine.

(* ------------------------------------------------------------------ *)
(** ** The dispatcher *)

Lemma startswith_begins_with (p s : string) :
  Py.startswith s p = true <-> begins_with p s.
Proof.
  revert s. induction p as [| c p IH]; intros s; cbn.
  - split; [| reflexivity]. intros _. exists s. reflexivity.
  - destruct s as [| d s].
    + split; [discriminate |]. intros [rest H]. discriminate.
    + rewrite andb_true_iff, Ascii.eqb_eq, IH. split.
      * intros [-> [rest ->]]. exists rest. reflexivity.
      * intros [rest H]. cbn in H. injection H as -> ->.
        split; [reflexivity | exists rest; reflexivity].
Qed.

Lemma startswith_false (p s : string) :
  Py.startswith s p = false <-> ~ begins_with p s.
Proof.
  rewrite <- startswith_begins_with.
  destruct (Py.startswith s p); split; congruence.
Qed.

Lemma selects_functional (msg : string) (r r' : Route) :
  selects msg r -> selects msg r' -> r = r'.
Proof.
  intros H H'. destruct H; destruct H'; try reflexivity; contradiction.
Qed.

Lemma chat_follows_selects (msg : string) :
  exists r, selects msg r
    /\ forall iso secs svc, chat iso secs svc msg = run_route iso secs svc r msg.
Proof.
  unfold chat.
  destruct (Py.startswith msg "/train") eqn:Ht;
    [apply startswith_begins_with in Ht | apply startswith_false in Ht].
  { exists RouteTrain. split; [constructor; assumption | reflexivity]. }
  destruct (Py.startswith msg "/code") eqn:Hc;
    [apply startswith_begins_with in Hc | apply startswith_false in Hc].
  { exists RouteCode. split; [constructor; assumption | reflexivity]. }
  destruct (Py.startswith msg "/svg") eqn:Hs;
    [apply startswith_begins_with in Hs | apply startswith_false in Hs].
  { exists RouteSvg. split; [constructor; assumption | reflexivity]. }
  destruct (Py.startswith msg "/clear") eqn:Hl;
    [apply startswith_begins_with in Hl | apply startswith_false in Hl].
  { exists RouteClear. split; [constructor; assumption | reflexivity]. }
  exists RouteChat. split; [constructor; assumption | reflexivity].
Qed.

(** C3.  Every message takes exactly one of the five routes, the one
    picked by trying the literal prefixes in the order train, code, svg,
    clear and falling back to the chat route, and [chat] runs that route.
    The message [/code /svg draw a circle] takes the code route, which
    receives [/svg draw a circle] as its description; a prefix in another
    letter case is no prefix. *)
Theorem chat_takes_one_route :
  (forall msg : string,
     exists r : Route,
       selects msg r
       /\ (forall r', selects msg r' -> r' = r)
       /\ (forall iso secs svc,
             chat iso secs svc msg = run_route iso secs svc r msg))
  /\ selects "/code /svg draw a circle" RouteCode
  /\ ~ selects "/code /svg draw a circle" RouteSvg
  /\ (forall iso secs svc,
        chat iso secs svc "/code /svg draw a circle"
        = (response <- generate_code iso svc "/svg draw a circle" ;;
           ret (mkReply response "Generating code")))
  /\ selects "/CODE x" RouteChat.
Proof.
  assert (Hcode : selects "/code /svg draw a circle" RouteCode).
  { constructor.
    - apply startswith_false. reflexivity.
    - apply startswith_begins_with. reflexivity. }
  split; [| split; [| split; [| split]]].
  - intros msg. destruct (chat_follows_selects msg) as (r & Hsel & Hrun).
    exists r. split; [exact Hsel | split; [| exact Hrun]].
    intros r' Hsel'. exact (selects_functional msg r' r Hsel' Hsel).
  - exact Hcode.
  - intros Hsvg. pose proof (selects_functional _ _ _ Hcode Hsvg). discriminate.
  - intros iso secs svc. reflexivity.
  - constructor; apply startswith_false; reflexivity.
Qed.

(** The slice [s[k:]] of a text that is [k] characters followed by more. *)
Lemma str_from_app (p rest : string) :
  Py.str_from (Z.of_nat (String.length p)) (p ++ rest) = rest.
Proof.
  unfold Py.str_from, Py.slice_from.
  assert (Hlen : forall a b : string,
             list_ascii_of_string (a ++ b)
             = (list_ascii_of_string a ++ list_ascii_of_string b)%list).
  { induction a as [| c a IH]; intros b; cbn; [| rewrite IH]; reflexivity. }
  assert (Hl : forall a : string,
             List.length (list_ascii_of_string a) = String.length a).
  { induction a as [| c a IH]; cbn; [| rewrite IH]; reflexivity. }
  rewrite Hlen, length_app, !Hl.
  replace (Z.of_nat (String.length p) <? 0)%Z with false
    by (symmetry; apply Z.ltb_ge; lia).
  rewrite Z.min_l, Nat2Z.id by lia.
  rewrite skipn_app, <- (Hl p), skipn_all, Nat.sub_diag. cbn [skipn app].
  apply string_of_list_ascii_of_string.
Qed.

Section Training.

Variable iso : nat -> string.
Variable secs : nat -> Z.
Variable svc : nat -> string -> Outcome string.

(** C7, as amended.  For every message beginning with [/train], [chat]
    drops the first seven characters (the six of the prefix and the one
    after it), trims the whitespace around what is left and hands that
    instruction to [train_mode].  The response is the fixed
    acknowledgement followed by the instruction; the engine afterwards
    differs only in the training flag, now set, and in one more thought
    (saved to the snapshot); the turn sequence is untouched. *)
Theorem chat_train_acknowledges :
  forall (msg : string) (e : INKAIEngine) (w : World),
    Py.startswith msg "/train" = true ->
    let instruction := Py.strip (Py.str_from 7 msg) in
    let m' :=
      mkMemory (current_session (memory e))
        (thinking_log (memory e)
         ++ [mkThought ("Training instruction received: " ++ instruction)
                       (iso (clock_reads w))]) in
    chat iso secs svc msg (e, w)
    = (mkReply ("Training mode activated. Instruction: " ++ instruction)
               "Entering training mode",
       (mkEngine (api_key e) (model e) m' true,
        saved_world iso m' (S (clock_reads w)) w))
    /\ (forall (sep : ascii) (rest : string),
          msg = "/train" ++ String sep rest -> instruction = Py.strip rest).
Proof.
  intros msg e w Hprefix instruction m'. split.
  - unfold chat. rewrite Hprefix. reflexivity.
  - intros sep rest ->. subst instruction. f_equal.
    exact (str_from_app (String.append "/train" (String sep EmptyString)) rest).
Qed.

End Training.

(** C7, as first stated, fails: the instruction embedded in the response
    to [/trainfoo] is [oo], which is the remainder [foo] neither as it
    stands nor trimmed. *)
Lemma chat_train_remainder_counterexample :
  ~ (forall (iso : nat -> string) (secs : nat -> Z)
            (svc : nat -> string -> Outcome string)
            (rest : string) (e : INKAIEngine) (w : World),
       response (eval (chat iso secs svc ("/train" ++ rest)) (e, w))
         = "Training mode activated. Instruction: " ++ rest
       \/ response (eval (chat iso secs svc ("/train" ++ rest)) (e, w))
         = "Training mode activated. Instruction: " ++ Py.strip rest).
Proof.
  intros H.
  specialize (H (fun _ => "") (fun _ => 0%Z) (fun _ _ => Raises "") "foo"
                (mkEngine "" None (mkMemory [] []) false)
                (mkWorld Absent [] 0 0)).
  vm_compute in H. destruct H as [H | H]; discriminate H.
Qed.

(* ------------------------------------------------------------------ *)
(** ** The image emitter *)

Lemma lower_app (a b : string) : Py.lower (a ++ b) = Py.lower a ++ Py.lower b.
Proof. induction a as [| c a IH]; cbn; [| rewrite IH]; reflexivity. Qed.

Lemma lower_split (d x y : string) :
  Py.lower d = x ++ y ->
  exists a b, d = a ++ b /\ Py.lower a = x /\ Py.lower b = y.
Proof.
  revert d. induction x as [| c x IH]; intros d H.
  - exists "", d. repeat split. exact H.
  - destruct d as [| c' d]; cbn in H; [discriminate |].
    injection H as Hc Hd. destruct (IH d Hd) as (a & b & -> & Ha & Hb).
    exists (String c' a), b. cbn. rewrite Hc, Ha. repeat split. exact Hb.
Qed.

Lemma contains_occurs (sub s : string) :
  Py.contains sub s = true <-> exists a b, s = a ++ sub ++ b.
Proof.
  induction s as [| c s IH].
  - cbn. rewrite orb_false_r, startswith_begins_with. split.
    + intros [rest H]. exists "", rest. exact H.
    + intros (a & b & H). destruct a; cbn in H.
      * exists b. exact H.
      * discriminate.
  - cbn [Py.contains]. rewrite orb_true_iff, startswith_begins_with, IH. split.
    + intros [[rest H] | (a & b & H)].
      * exists "", rest. exact H.
      * exists (String c a), b. cbn. rewrite H. reflexivity.
    + intros (a & b & H). destruct a as [| c' a]; cbn in H.
      * left. exists b. exact H.
      * right. injection H as _ H. exists a, b. exact H.
Qed.

Lemma contains_lower_mentions (word d : string) :
  Py.contains word (Py.lower d) = true <-> mentions word d.
Proof.
  rewrite contains_occurs. split.
  - intros (a' & b' & H).
    destruct (lower_split _ _ _ H) as (a & rest & -> & _ & Hrest).
    destruct (lower_split _ _ _ Hrest) as (hit & b & -> & Hhit & _).
    exists a, hit, b. split; [reflexivity | exact Hhit].
  - intros (a & hit & b & -> & Hhit).
    exists (Py.lower a), (Py.lower b). rewrite !lower_app, Hhit. reflexivity.
Qed.

Lemma contains_lower_not_mentions (word d : string) :
  Py.contains word (Py.lower d) = false <-> ~ mentions word d.
Proof.
  rewrite <- contains_lower_mentions.
  destruct (Py.contains word (Py.lower d)); split; congruence.
Qed.

Lemma str_to_substring (k : nat) (s : string) :
  Py.str_to (Z.of_nat k) s = substring 0 k s.
Proof.
  unfold Py.str_to, Py.slice_to.
  replace (Z.of_nat k <? 0)%Z with false by (symmetry; apply Z.ltb_ge; lia).
  rewrite <- Nat2Z.inj_min, Nat2Z.id.
  revert k. induction s as [| c s IH]; intros k.
  - destruct k; reflexivity.
  - destruct k as [| k]; cbn; [reflexivity |]. f_equal. apply IH.
Qed.

(** Settles [mentions] or its negation on a closed description. *)
Ltac mentions_by_search :=
  first [ apply contains_lower_mentions; reflexivity
        | apply contains_lower_not_mentions; reflexivity ].

Lemma classified_functional (d : string) (s s' : Shape) :
  classified d s -> classified d s' -> s = s'.
Proof.
  intros H H'. destruct H; destruct H'; try reflexivity; tauto.
Qed.

Lemma svg_drawing_classified (d path : string) :
  exists s, classified d s
    /\ svg_drawing d path
       = mkDrawing path ("400px", "400px") (shape_elements s d).
Proof.
  unfold svg_drawing.
  destruct (Py.contains "circle" (Py.lower d)) eqn:Hc;
    [apply contains_lower_mentions in Hc
    | apply contains_lower_not_mentions in Hc].
  { exists ShapeCircle. split; [constructor; assumption | reflexivity]. }
  destruct (Py.contains "rect" (Py.lower d)) eqn:Hr;
    [apply contains_lower_mentions in Hr
    | apply contains_lower_not_mentions in Hr].
  { exists ShapeRectangle. split; [constructor; tauto | reflexivity]. }
  destruct (Py.contains "square" (Py.lower d)) eqn:Hq;
    [apply contains_lower_mentions in Hq
    | apply contains_lower_not_mentions in Hq].
  { exists ShapeRectangle. split; [constructor; tauto | reflexivity]. }
  destruct (Py.contains "star" (Py.lower d)) eqn:Hs;
    [apply contains_lower_mentions in Hs
    | apply contains_lower_not_mentions in Hs].
  { exists ShapeStar. split; [constructor; assumption | reflexivity]. }
  exists ShapeLabel. split; [constructor; assumption |].
  cbn [orb]. unfold dwg_add. cbn [dwg_filename dwg_size dwg_elements app].
  change 20%Z with (Z.of_nat 20). rewrite str_to_substring. reflexivity.
Qed.

(** C6.  Every description gets exactly one of the four shapes, by
    whether it contains, in any letter case, the word circle, else rect
    or square, else star, else none of them; [generate_svg] writes under
    the images directory a 400px by 400px drawing holding that shape: a
    filled circle, a filled rectangle, the filled polygon of the ten
    fixed star points, or a light-gray square with the first 20
    characters of the description as centred text; and it returns the
    path.  The four sample descriptions get the four shapes. *)
Theorem generate_svg_draws_classified_shape :
  (forall (description filename : string) (w : World),
     exists s : Shape,
       classified description s
       /\ (forall s', classified description s' -> s' = s)
       /\ generate_svg description filename w
          = ("cache/images/" ++ filename,
             with_image ("cache/images/" ++ filename)
               (mkDrawing ("cache/images/" ++ filename) ("400px", "400px")
                          (shape_elements s description))
               w))
  /\ List.length star_points = 10
  /\ classified "please draw a circle" ShapeCircle
  /\ classified "a red square please" ShapeRectangle
  /\ classified "give me a star" ShapeStar
  /\ classified "hello" ShapeLabel
  /\ classified "A CIRCLE and a Star" ShapeCircle.
Proof.
  split.
  - intros d filename w.
    destruct (svg_drawing_classified d ("cache/images/" ++ filename))
      as (s & Hs & Hdraw).
    exists s. split; [exact Hs | split].
    + intros s' Hs'. exact (classified_functional d s' s Hs' Hs).
    + unfold generate_svg, bind, dwg_save, ret. rewrite Hdraw. reflexivity.
  - split; [reflexivity |]. repeat apply conj.
    + apply classified_circle; mentions_by_search.
    + apply classified_rectangle; [| right]; mentions_by_search.
    + apply classified_star; mentions_by_search.
    + apply classified_label; mentions_by_search.
    + apply classified_circle; mentions_by_search.
Qed.

(* ------------------------------------------------------------------ *)
(** ** The model handle is set once *)

Section ModelHandle.

Variable iso : nat -> string.
Variable secs : nat -> Z.
Variable svc : nat -> string -> Outcome string.

Lemma in_memory_keeps_model {A : Type} (c : M MemState A)
    (e : INKAIEngine) (w : World) :
  model (fst (exec (in_memory c) (e, w))) = model e.
Proof.
  unfold exec, in_memory. destruct (c (memory e, w)) as [a [m' w']].
  reflexivity.
Qed.

(** No route assigns [self.model]: an engine built without a key stays
    without a model whatever messages it serves. *)
Lemma chat_keeps_model (msg : string) (e : INKAIEngine) (w : World) :
  model (fst (exec (chat iso secs svc msg) (e, w))) = model e.
Proof.
  destruct (chat_follows_selects msg) as (r & _ & ->).
  destruct r; cbn [run_route].
  - reflexivity.
  - unfold chat_code, generate_code, exec, bind.
    rewrite in_memory_add_thinking. cbn [get_engine with_memory model].
    destruct (model e) as [g |] eqn:Hm.
    + rewrite model_generate_text_eq.
      destruct (svc _ _); [rewrite in_memory_add_thinking |];
        cbn; congruence.
    + cbn. congruence.
  - reflexivity.
  - reflexivity.
  - unfold generate_response, exec, bind. cbn [get_engine].
    destruct (model e) as [g |] eqn:Hm; [| cbn; congruence].
    rewrite in_memory_add_thinking, in_memory_get_context,
      in_memory_add_thinking, model_generate_text_eq.
    destruct (svc _ _).
    + rewrite !in_memory_add_message, in_memory_add_thinking.
      cbn. congruence.
    + rewrite in_memory_add_thinking. cbn. congruence.
Qed.

End ModelHandle.

(* ------------------------------------------------------------------ *)
(** ** The primitives and the routes on small inputs *)

Example slice_from_examples :
  Py.slice_from (-3) [1; 2; 3; 4; 5] = [3; 4; 5]
  /\ Py.slice_from (-7) [1; 2; 3; 4; 5] = [1; 2; 3; 4; 5]
  /\ Py.slice_from 0 [1; 2; 3; 4; 5] = [1; 2; 3; 4; 5]
  /\ Py.slice_from 3 [1; 2; 3; 4; 5] = [4; 5]
  /\ Py.slice_from 9 [1; 2; 3; 4; 5] = [].
Proof. repeat split. Qed.

Example text_examples :
  Py.strip "  be  nice " = "be  nice"
  /\ Py.lower "Draw a CIRCLE!" = "draw a circle!"
  /\ Py.str_from 7 "/train be nice" = "be nice"
  /\ Py.str_from 7 "/tr" = ""
  /\ Py.str_to 20 "abcdefghijklmnopqrstuvwxyz" = "abcdefghijklmnopqrst"
  /\ Py.join ", " ["a"; "b"; "c"] = "a, b, c"
  /\ Py.str_of_int 1700000000 = "1700000000".
Proof. repeat split. Qed.

Example chat_answers_and_records :
  let s' := exec (chat Sample.iso Sample.secs Sample.answering "hello")
                 (Sample.with_key, Sample.world) in
  eval (chat Sample.iso Sample.secs Sample.answering "hello")
       (Sample.with_key, Sample.world)
  = mkReply "Hello from INK"
      (Py.join Py.nl
         ["Processing user input: hi...";
          "Processing user input: hello...";
          "Generating response from Gemini...";
          "Response generated successfully"])
  /\ current_session (memory (fst s'))
     = [mkTurn "user" "hi" "T0"; mkTurn "assistant" "hello" "T1";
        mkTurn "user" "hello" "T4"; mkTurn "assistant" "Hello from INK" "T6"]
  /\ service_calls (snd s') = 1.
Proof. vm_compute. repeat split. Qed.

Example chat_svg_writes_file :
  let s' := exec (chat Sample.iso Sample.secs Sample.answering "/svg a Star")
                 (Sample.with_key, Sample.world) in
  eval (chat Sample.iso Sample.secs Sample.answering "/svg a Star")
       (Sample.with_key, Sample.world)
  = mkReply "SVG created! View it at: /images/svg_1700000000.svg"
            "Generating SVG image"
  /\ image_files (snd s')
     = [("cache/images/svg_1700000000.svg",
         mkDrawing "cache/images/svg_1700000000.svg" ("400px", "400px")
                   [Polygon star_points "gold"])].
Proof. vm_compute. repeat split. Qed.

(* ------------------------------------------------------------------ *)
(** ** The statements at sample inputs *)

Lemma snapshot_holds_recent_window_witness :
  Sample.long_run <> []
  /\ 100 < List.length (turns_of Sample.long_run)
  /\ exists appended,
       current_session
         (fst (exec (run_appends Sample.iso Sample.long_run)
                    (Sample.two_turns, Sample.world)))
       = (current_session Sample.two_turns ++ appended)%list
       /\ map (fun t => (role t, content t)) appended
          = turns_of Sample.long_run
       /\ snapshot_turns
            (snd (exec (run_appends Sample.iso Sample.long_run)
                       (Sample.two_turns, Sample.world)))
          = Some (JArr (map json_of_turn (lastn 100 appended)))
       /\ List.length (lastn 100 appended) = 100.
Proof.
  assert (Hne : Sample.long_run <> []) by discriminate.
  assert (Hmany : 100 < List.length (turns_of Sample.long_run))
    by (vm_compute; lia).
  split; [exact Hne | split; [exact Hmany |]].
  exact (proj2 (snapshot_holds_recent_window Sample.iso Sample.long_run
                  Sample.two_turns Sample.world Hne) Hmany).
Defined.

Lemma save_then_load_restores_turns_witness :
  List.length (current_session Sample.two_turns) <= 100
  /\ exists m',
       INKMemory_init
         (snd (exec (save_memory Sample.iso) (Sample.two_turns, Sample.world)))
       = Built m'
       /\ current_session m' = current_session Sample.two_turns
       /\ map role (current_session m')
          = map role (current_session Sample.two_turns)
       /\ map content (current_session m')
          = map content (current_session Sample.two_turns)
       /\ map timestamp (current_session m')
          = map timestamp (current_session Sample.two_turns).
Proof.
  assert (Hk : List.length (current_session Sample.two_turns) <= 100)
    by (cbn; lia).
  split; [exact Hk |].
  exact (save_then_load_restores_turns Sample.iso Sample.two_turns
           Sample.world Hk).
Defined.

Lemma generate_response_without_model_witness :
  model Sample.without_key = None
  /\ generate_response Sample.iso Sample.answering "hi"
       (Sample.without_key, Sample.world)
     = (mkReply refusal_text refusal_diagnostic,
        (Sample.without_key, Sample.world)).
Proof.
  split; [reflexivity |].
  apply (generate_response_without_model Sample.iso Sample.answering "hi"
           Sample.without_key Sample.world).
  reflexivity.
Defined.

Lemma generate_response_absorbs_failure_witness :
  model Sample.with_key = Some (GenModel "gemini-2.5-flash")
  /\ response
       (eval (generate_response Sample.iso Sample.failing "hi")
             (Sample.with_key, Sample.world))
     = "I encountered an error: 429 quota exceeded"
  /\ current_session
       (memory (fst (exec (generate_response Sample.iso Sample.failing "hi")
                          (Sample.with_key, Sample.world))))
     = current_session Sample.two_turns.
Proof.
  split; [reflexivity |].
  pose proof
    (proj1 (generate_response_absorbs_failure Sample.iso Sample.failing
              "hi" "429 quota exceeded" (GenModel "gemini-2.5-flash")
              Sample.with_key Sample.world eq_refl eq_refl)) as Hrun.
  unfold eval, exec. rewrite Hrun. split; reflexivity.
Defined.

Lemma generate_code_without_model_witness :
  model Sample.without_key = None
  /\ eval (generate_code Sample.iso Sample.answering "sort a list")
          (Sample.without_key, Sample.world)
     <> refusal_text.
Proof.
  split; [reflexivity |].
  exact (proj1 (proj2 (generate_code_without_model Sample.iso Sample.answering
                         "sort a list" Sample.without_key Sample.world
                         eq_refl))).
Defined.

Lemma chat_train_acknowledges_witness :
  Py.startswith "/train be brief " "/train" = true
  /\ chat Sample.iso Sample.secs Sample.answering "/train be brief "
          (Sample.without_key, Sample.world)
     = (mkReply "Training mode activated. Instruction: be brief"
                "Entering training mode",
        (mkEngine "" None
           (mkMemory (current_session Sample.two_turns)
              (thinking_log Sample.two_turns
               ++ [mkThought "Training instruction received: be brief" "T0"]))
           true,
         saved_world Sample.iso
           (mkMemory (current_session Sample.two_turns)
              (thinking_log Sample.two_turns
               ++ [mkThought "Training instruction received: be brief" "T0"]))
           1 Sample.world)).
Proof.
  split; [reflexivity |].
  exact (proj1 (chat_train_acknowledges Sample.iso Sample.secs Sample.answering
                  "/train be brief " Sample.without_key Sample.world
                  eq_refl)).
Defined.

Lemma get_context_zero_gives_everything_witness :
  current_session Sample.two_turns <> []
  /\ eval (get_context 0) (Sample.two_turns, Sample.world)
     = current_session Sample.two_turns.
Proof.
  assert (Hne : current_session Sample.two_turns <> []) by discriminate.
  split; [exact Hne |].
  exact (proj1 (get_context_zero_gives_everything Sample.two_turns
                  Sample.world Hne)).
Defined.

(* ------------------------------------------------------------------ *)
(** ** More on the conversation store *)

Lemma lastn_lastn {A : Type} (n : nat) (l : list A) :
  lastn n (lastn n l) = lastn n l.
Proof. apply lastn_all. rewrite lastn_length. lia. Qed.

(** Growing the window by the length of what was appended keeps all of
    it and the window's worth of what was there before. *)
Lemma lastn_app_more {A : Type} (n : nat) (old new : list A) :
  lastn (n + List.length new) (old ++ new) = (lastn n old ++ new)%list.
Proof.
  unfold lastn. rewrite length_app, skipn_app.
  replace (List.length old + List.length new - (n + List.length new))
    with (List.length old - n) by lia.
  replace (List.length old - n - List.length old) with 0 by lia.
  reflexivity.
Qed.

Lemma load_memory_by_key (data : list (string * json))
    (cs : list Turn) (tl : list ThoughtEntry) (m0 : INKMemory) (w : World) :
  memory_json w = Document (JObj data) ->
  field_gives json_of_turn "current_session" data cs ->
  field_gives json_of_thought "thinking_log" data tl ->
  load_memory m0 w = Built (mkMemory cs tl).
Proof.
  intros Hfile Hcs Htl. unfold load_memory. rewrite Hfile.
  destruct Hcs as [-> | [-> ->]], Htl as [-> | [-> ->]];
    rewrite ?(read_all_map _ _ turn_of_json_of_turn),
            ?(read_all_map _ _ thought_of_json_of_thought);
    reflexivity.
Qed.

Lemma load_in_sync (m m0 : INKMemory) (w : World) :
  in_sync (m, w) ->
  load_memory m0 w
  = Built (mkMemory (lastn 100 (current_session m))
                    (lastn 100 (thinking_log m))).
Proof.
  intros [stamp Hfile]. cbn [fst snd] in Hfile.
  apply (load_memory_by_key _ _ _ _ _ Hfile); left; unfold snapshot;
    rewrite !slice_from_lastn_100; reflexivity.
Qed.


(** X2.  Saving a store, loading the file in a fresh instance and saving
    that instance writes the same two arrays as the first save: the
    window does not shrink further from restart to restart. *)
Theorem save_load_save_is_stable :
  forall (iso : nat -> string) (m : INKMemory) (w w2 : World),
    exists m',
      INKMemory_init (snd (exec (save_memory iso) (m, w))) = Built m'
      /\ snapshot_turns (snd (exec (save_memory iso) (m', w2)))
         = snapshot_turns (snd (exec (save_memory iso) (m, w)))
      /\ snapshot_thoughts (snd (exec (save_memory iso) (m', w2)))
         = snapshot_thoughts (snd (exec (save_memory iso) (m, w))).
Proof.
  intros iso m w w2.
  exists (mkMemory (lastn 100 (current_session m)) (lastn 100 (thinking_log m))).
  unfold exec. rewrite !save_memory_eq. cbn [snd].
  split; [apply load_saved |].
  unfold snapshot_turns, snapshot_thoughts, snapshot_field, saved_world,
    snapshot.
  cbn. rewrite !slice_from_lastn_100, !lastn_lastn. split; reflexivity.
Qed.



(** X5.  A built engine has a model exactly when the key is not empty and
    setting up the client did not raise; it keeps the key, starts outside
    training mode and holds the store as loaded. *)
Theorem engine_has_model_iff_key_accepted :
  forall (raises : string -> bool) (key : string) (w : World)
         (e : INKAIEngine),
    INKAIEngine_init raises key w = Built e ->
    (model e <> None <-> key <> "" /\ raises key = false)
    /\ api_key e = key
    /\ training_mode e = false
    /\ INKMemory_init w = Built (memory e).
Proof.
  intros raises key w e. unfold INKAIEngine_init.
  destruct (INKMemory_init w) as [m | x |]; try discriminate.
  unfold initialize_model. cbn [api_key memory training_mode].
  destruct (String.eqb_spec key "") as [-> | Hkey].
  - intros [= <-]. cbn. repeat split; try tauto;
      try (intros [H _]; congruence).
  - destruct (raises key) eqn:Hr; intros [= <-]; cbn; repeat split;
      try tauto; try congruence; try (intros [_ H]; discriminate).
Qed.

(** X6.  [get_context] with the limit [-k], for [k] from 0 up, gives the
    session without its [k] oldest turns (all of it for 0, nothing once
    [k] reaches the length), and for every limit gives a suffix of the
    session and leaves the state alone. *)
Theorem get_context_negative_limit_drops_oldest :
  forall (m : INKMemory) (w : World),
    (forall k : nat,
       eval (get_context (- Z.of_nat k)) (m, w) = skipn k (current_session m))
    /\ (forall limit : Z,
          exists older,
            current_session m = (older ++ eval (get_context limit) (m, w))%list)
    /\ (forall limit : Z, exec (get_context limit) (m, w) = (m, w)).
Proof.
  intros m w. split; [| split].
  - intros k. unfold eval. rewrite get_context_eq. cbn [fst].
    rewrite Z.opp_involutive. unfold Py.slice_from.
    replace (Z.of_nat k <? 0)%Z with false by (symmetry; apply Z.ltb_ge; lia).
    rewrite <- Nat2Z.inj_min, Nat2Z.id.
    destruct (Nat.le_ge_cases k (List.length (current_session m))) as [H | H].
    + rewrite Nat.min_l by exact H. reflexivity.
    + rewrite Nat.min_r by exact H. rewrite !skipn_all2 by lia. reflexivity.
  - intros limit. unfold eval. rewrite get_context_eq. cbn [fst].
    unfold Py.slice_from. eexists. symmetry. apply firstn_skipn.
  - intros limit. reflexivity.
Qed.

(* ------------------------------------------------------------------ *)
(** ** More on the response engine *)

Section EngineMore.

Variable iso : nat -> string.
Variable svc : nat -> string -> Outcome string.

(** The prompt [generate_response] sends for a store and an input. *)
Local Abbreviation prompt_of m user_input :=
  (response_prompt
     (Py.join Py.nl
        (map (fun t => role t ++ ": " ++ content t)
             (lastn 10 (current_session m))))
     user_input).

Lemma in_memory_get_memory (e : INKAIEngine) (w : World) :
  in_memory get_memory (e, w) = (memory e, (e, w)).
Proof. destruct e. reflexivity. Qed.

(** The state and the reply after an exchange that went through. *)
Lemma generate_response_success :
  forall (user_input ai_response : string) (g : GenerativeModel)
         (e : INKAIEngine) (w : World),
    model e = Some g ->
    svc (service_calls w) (prompt_of (memory e) user_input)
      = Returns ai_response ->
    let n := clock_reads w in
    let m' :=
      mkMemory
        (current_session (memory e) ++ exchange_turns iso n user_input ai_response)
        (thinking_log (memory e) ++ exchange_thoughts iso n user_input) in
    generate_response iso svc user_input (e, w)
    = (mkReply ai_response
         (Py.join Py.nl
            (map thought (lastn 2 (thinking_log (memory e))
                          ++ exchange_thoughts iso n user_input))),
       (with_memory e m', saved_world iso m' (n + 9) (called w))).
Proof.
  intros user_input ai_response g e w Hmodel Hok n m'.
  rewrite <- slice_from_lastn_10 in Hok.
  unfold generate_response.
  run_with (get_engine_eq e w). rewrite Hmodel.
  run_with in_memory_add_thinking.
  run_with in_memory_get_context.
  run_with in_memory_add_thinking.
  run_with (model_generate_text_eq svc g).
  cbn [memory with_memory current_session service_calls saved_world].
  change (Z.opp 10) with (-10)%Z. rewrite Hok.
  run_with in_memory_add_message.
  run_with in_memory_add_message.
  run_with in_memory_add_thinking.
  run_with in_memory_get_memory.
  subst m' n. unfold ret, exchange_thoughts, exchange_turns.
  cbn [memory with_memory current_session thinking_log clock_reads
       saved_world called api_key model training_mode image_files
       service_calls].
  rewrite <- !app_assoc. cbn [app].
  replace (clock_reads w + 2) with (S (S (clock_reads w))) by lia.
  replace (clock_reads w + 4) with (S (S (S (S (clock_reads w))))) by lia.
  replace (clock_reads w + 6)
    with (S (S (S (S (S (S (clock_reads w))))))) by lia.
  replace (clock_reads w + 8)
    with (S (S (S (S (S (S (S (S (clock_reads w))))))))) by lia.
  replace (clock_reads w + 9)
    with (S (S (S (S (S (S (S (S (S (clock_reads w)))))))))) by lia.
  do 4 f_equal.
  rewrite (slice_from_negative 5) by lia.
  exact (lastn_app_more 2 (thinking_log (memory e)) [_; _; _]).
Qed.

(** The state and the reply after an exchange the service refused. *)
Lemma generate_response_failure
    (user_input str_e : string) (g : GenerativeModel)
    (e : INKAIEngine) (w : World) :
  model e = Some g ->
  svc (service_calls w) (prompt_of (memory e) user_input) = Raises str_e ->
  let n := clock_reads w in
  let m' :=
    mkMemory (current_session (memory e))
      (thinking_log (memory e)
       ++ [mkThought ("Processing user input: "
                      ++ Py.str_to 50 user_input ++ "...") (iso n);
           mkThought "Generating response from Gemini..." (iso (n + 2));
           mkThought ("Error: " ++ str_e) (iso (n + 4))]) in
  generate_response iso svc user_input (e, w)
  = (mkReply ("I encountered an error: " ++ str_e) ("Error: " ++ str_e),
     (with_memory e m', saved_world iso m' (n + 5) (called w))).
Proof.
  intros Hmodel Hfail n m'.
  rewrite <- slice_from_lastn_10 in Hfail.
  unfold generate_response.
  run_with (get_engine_eq e w). rewrite Hmodel.
  run_with in_memory_add_thinking.
  run_with in_memory_get_context.
  run_with in_memory_add_thinking.
  run_with (model_generate_text_eq svc g).
  cbn [memory with_memory current_session service_calls saved_world].
  change (Z.opp 10) with (-10)%Z. rewrite Hfail.
  run_with in_memory_add_thinking.
  unfold ret. subst m' n.
  cbn [memory with_memory current_session thinking_log clock_reads
       saved_world called api_key model training_mode image_files
       service_calls].
  rewrite <- !app_assoc. cbn [app].
  replace (clock_reads w + 2) with (S (S (clock_reads w))) by lia.
  replace (clock_reads w + 4) with (S (S (S (S (clock_reads w))))) by lia.
  replace (clock_reads w + 5) with (S (S (S (S (S (clock_reads w)))))) by lia.
  reflexivity.
Qed.

(** X7.  When the engine holds a model and the remote call returns a
    text, [generate_response] returns that text, appends the user turn
    and then the assistant turn after the turns already there, records
    three thoughts, calls the service once, and leaves the file in step
    with the store.  The diagnostic is the thoughts of this exchange
    behind at most two older ones, one per line. *)
Theorem generate_response_records_exchange :
  forall (user_input ai_response : string) (g : GenerativeModel)
         (e : INKAIEngine) (w : World),
    model e = Some g ->
    svc (service_calls w) (prompt_of (memory e) user_input)
      = Returns ai_response ->
    let n := clock_reads w in
    let m' :=
      mkMemory
        (current_session (memory e) ++ exchange_turns iso n user_input ai_response)
        (thinking_log (memory e) ++ exchange_thoughts iso n user_input) in
    generate_response iso svc user_input (e, w)
    = (mkReply ai_response
         (Py.join Py.nl
            (map thought (lastn 2 (thinking_log (memory e))
                          ++ exchange_thoughts iso n user_input))),
       (with_memory e m', saved_world iso m' (n + 9) (called w))).
Proof.
  intros user_input ai_response g e w Hmodel Hok.
  exact (generate_response_success user_input ai_response g e w Hmodel Hok).
Qed.

(** What [generate_response] answers when the engine holds a model. *)
Lemma generate_response_answer (user_input : string) (e : INKAIEngine)
    (w : World) :
  model e <> None ->
  response (eval (generate_response iso svc user_input) (e, w))
  = match svc (service_calls w) (prompt_of (memory e) user_input) with
    | Returns ai_response => ai_response
    | Raises str_e => "I encountered an error: " ++ str_e
    end.
Proof.
  intros Hmodel. destruct (model e) as [g |] eqn:Hg; [| congruence].
  rewrite <- slice_from_lastn_10.
  unfold eval, generate_response.
  run_with (get_engine_eq e w). rewrite Hg.
  run_with in_memory_add_thinking.
  run_with in_memory_get_context.
  run_with in_memory_add_thinking.
  run_with (model_generate_text_eq svc g).
  cbn [memory with_memory current_session service_calls saved_world].
  change (Z.opp 10) with (-10)%Z.
  destruct (svc (service_calls w) _) as [ai | str_e].
  - run_with in_memory_add_message.
    run_with in_memory_add_message.
    run_with in_memory_add_thinking.
    run_with in_memory_get_memory.
    reflexivity.
  - run_with in_memory_add_thinking. reflexivity.
Qed.

(** X8.  The answer of [generate_response] depends on the store only
    through its last ten turns: two engines holding a model whose
    sessions end in the same ten turns, asked the same input at the same
    call of the service, answer alike, whatever older turns and thoughts
    they hold. *)
Theorem generate_response_sees_last_ten_turns :
  forall (user_input : string) (e1 e2 : INKAIEngine) (w1 w2 : World),
    model e1 <> None ->
    model e2 <> None ->
    lastn 10 (current_session (memory e1))
      = lastn 10 (current_session (memory e2)) ->
    service_calls w1 = service_calls w2 ->
    response (eval (generate_response iso svc user_input) (e1, w1))
    = response (eval (generate_response iso svc user_input) (e2, w2)).
Proof.
  intros user_input e1 e2 w1 w2 H1 H2 Hten Hcalls.
  rewrite !generate_response_answer by assumption.
  rewrite Hten, Hcalls. reflexivity.
Qed.

(** X9.  [generate_code] never touches the turn sequence, whatever the
    engine and whatever the service does.  It always records the
    request thought first, and after it at most the success thought;
    the file ends in step with the store. *)
Theorem generate_code_leaves_turns :
  forall (description : string) (e : INKAIEngine) (w : World),
    let s' := exec (generate_code iso svc description) (e, w) in
    current_session (memory (fst s')) = current_session (memory e)
    /\ (exists later,
          thinking_log (memory (fst s'))
          = (thinking_log (memory e)
             ++ mkThought ("Code generation requested: " ++ description)
                          (iso (clock_reads w)) :: later)%list
          /\ (later = []
              \/ later = [mkThought "Code generated successfully"
                                    (iso (clock_reads w + 2))]))
    /\ in_sync (memory (fst s'), snd s').
Proof.
  intros description e w s'. subst s'. unfold exec, generate_code.
  run_with in_memory_add_thinking.
  erewrite bind_run by reflexivity. cbv beta.
  cbn [with_memory model].
  destruct (model e) as [g |].
  - run_with (model_generate_text_eq svc g).
    destruct (svc _ _) as [code | str_e].
    + run_with in_memory_add_thinking. unfold ret.
      cbn [fst snd memory with_memory current_session thinking_log
           saved_world called clock_reads].
      split; [reflexivity | split].
      * eexists. rewrite <- app_assoc. cbn [app]. split; [reflexivity |].
        right. replace (clock_reads w + 2) with (S (S (clock_reads w))) by lia.
        reflexivity.
      * eexists. reflexivity.
    + unfold ret. cbn [fst snd memory with_memory current_session thinking_log].
      split; [reflexivity | split].
      * exists []. split; [reflexivity | left; reflexivity].
      * eexists. reflexivity.
  - unfold model_generate_text, bind, ret.
    cbn [fst snd memory with_memory current_session thinking_log].
    split; [reflexivity | split].
    + exists []. split; [reflexivity | left; reflexivity].
    + eexists. reflexivity.
Qed.


End EngineMore.

(* ------------------------------------------------------------------ *)
(** ** More on the dispatcher *)

Section Routes.

Variable iso : nat -> string.
Variable secs : nat -> Z.
Variable svc : nat -> string -> Outcome string.

Lemma chat_train_state (msg : string) (e : INKAIEngine) (w : World) :
  let instruction := Py.strip (Py.str_from 7 msg) in
  let m' :=
    mkMemory (current_session (memory e))
      (thinking_log (memory e)
       ++ [mkThought ("Training instruction received: " ++ instruction)
                     (iso (clock_reads w))]) in
  chat_train iso msg (e, w)
  = (mkReply ("Training mode activated. Instruction: " ++ instruction)
             "Entering training mode",
     (mkEngine (api_key e) (model e) m' true,
      saved_world iso m' (S (clock_reads w)) w)).
Proof. reflexivity. Qed.

Lemma svg_drawing_filename (description path : string) :
  dwg_filename (svg_drawing description path) = path.
Proof.
  unfold svg_drawing.
  destruct (Py.contains "circle" _); [reflexivity |].
  destruct (_ || _); [reflexivity |].
  destruct (Py.contains "star" _); reflexivity.
Qed.

Lemma chat_svg_state (msg : string) (e : INKAIEngine) (w : World) :
  let seconds := secs (clock_reads w) in
  chat_svg secs msg (e, w)
  = (mkReply ("SVG created! View it at: /images/" ++ svg_name seconds)
             "Generating SVG image",
     (e, with_image (svg_path seconds)
           (svg_drawing (Py.strip (Py.str_from 5 msg)) (svg_path seconds))
           (ticked w))).
Proof.
  intros seconds. unfold chat_svg, bind, outside, now_seconds, generate_svg,
    bind, dwg_save, ret, with_image, ticked.
  cbn [fst snd memory_json image_files clock_reads service_calls].
  rewrite svg_drawing_filename. reflexivity.
Qed.

Lemma chat_clear_state (e : INKAIEngine) (w : World) :
  chat_clear iso (e, w)
  = (mkReply "Memory cleared!" "Session reset",
     (with_memory e (mkMemory [] []),
      saved_world iso (mkMemory [] []) (clock_reads w) w)).
Proof. reflexivity. Qed.

(** The state [generate_code] leaves, by what the engine holds and what
    the service does. *)
Lemma generate_code_state (description : string) (e : INKAIEngine) (w : World) :
  let n := clock_reads w in
  let asked := mkThought ("Code generation requested: " ++ description) (iso n) in
  let m1 := mkMemory (current_session (memory e))
                     (thinking_log (memory e) ++ [asked]) in
  let m2 := mkMemory (current_session (memory e))
              (thinking_log (memory e)
               ++ [asked; mkThought "Code generated successfully" (iso (n + 2))]) in
  snd (generate_code iso svc description (e, w))
  = match model e with
    | None => (with_memory e m1, saved_world iso m1 (S n) w)
    | Some _ =>
        match svc (service_calls w) (code_prompt description) with
        | Returns _ => (with_memory e m2, saved_world iso m2 (n + 3) (called w))
        | Raises _ => (with_memory e m1, saved_world iso m1 (S n) (called w))
        end
    end.
Proof.
  intros n asked m1 m2. unfold generate_code.
  run_with in_memory_add_thinking.
  erewrite bind_run by reflexivity. cbv beta.
  cbn [with_memory model].
  destruct (model e) as [g |] eqn:Hm.
  - run_with (model_generate_text_eq svc g).
    cbn [service_calls saved_world].
    destruct (svc (service_calls w) (code_prompt description)) as [code | s].
    + run_with in_memory_add_thinking. unfold ret. subst m2 m1 asked n.
      cbn [snd memory with_memory current_session thinking_log clock_reads
           saved_world called api_key model training_mode image_files
           service_calls].
      rewrite <- !app_assoc. cbn [app].
      replace (clock_reads w + 2) with (S (S (clock_reads w))) by lia.
      replace (clock_reads w + 3) with (S (S (S (clock_reads w)))) by lia.
      reflexivity.
    + unfold ret. subst m1 asked n. reflexivity.
  - unfold model_generate_text, bind, ret. subst m1 asked n. reflexivity.
Qed.

(** The state [generate_response] leaves, by what the engine holds and
    what the service does. *)
Lemma generate_response_state (user_input : string) (e : INKAIEngine)
    (w : World) :
  let n := clock_reads w in
  snd (generate_response iso svc user_input (e, w))
  = match model e with
    | None => (e, w)
    | Some _ =>
        match svc (service_calls w)
                  (response_prompt
                     (Py.join Py.nl
                        (map (fun t => role t ++ ": " ++ content t)
                             (lastn 10 (current_session (memory e)))))
                     user_input) with
        | Returns ai =>
            let m' := mkMemory
                        (current_session (memory e)
                         ++ exchange_turns iso n user_input ai)
                        (thinking_log (memory e)
                         ++ exchange_thoughts iso n user_input) in
            (with_memory e m', saved_world iso m' (n + 9) (called w))
        | Raises str_e =>
            let m' := mkMemory (current_session (memory e))
                        (thinking_log (memory e)
                         ++ failure_thoughts iso n user_input str_e) in
            (with_memory e m', saved_world iso m' (n + 5) (called w))
        end
    end.
Proof.
  intros n. destruct (model e) as [g |] eqn:Hm.
  - destruct (svc (service_calls w) _) as [ai | str_e] eqn:Hsvc.
    + rewrite (generate_response_success iso svc _ _ g e w Hm Hsvc).
      reflexivity.
    + rewrite (generate_response_failure iso svc _ _ g e w Hm Hsvc).
      reflexivity.
  - unfold generate_response, bind, get_engine. rewrite Hm. reflexivity.
Qed.

Lemma chat_code_exec (msg : string) (s : EngineState) :
  exec (chat_code iso svc msg) s
  = snd (generate_code iso svc (Py.strip (Py.str_from 6 msg)) s).
Proof.
  unfold exec, chat_code, bind.
  destruct (generate_code iso svc _ s) as [r s']. reflexivity.
Qed.

(** Splits a statement about [exec (chat ...)] into the five routes, each
    with the state that route leaves. *)
Ltac by_route msg e w :=
  unfold chat;
  destruct (Py.startswith msg "/train") eqn:Htrain;
    [ unfold exec; rewrite chat_train_state
    | destruct (Py.startswith msg "/code") eqn:Hcode;
      [ rewrite chat_code_exec, generate_code_state
      | destruct (Py.startswith msg "/svg") eqn:Hsvg;
        [ unfold exec; rewrite chat_svg_state
        | destruct (Py.startswith msg "/clear") eqn:Hclear;
          [ unfold exec; rewrite chat_clear_state
          | unfold exec; rewrite generate_response_state ] ] ] ];
  cbv zeta.

(** X11.  The turn sequence after one message: unchanged on the train,
    code and svg routes, empty on the clear route, and on the chat route
    longer by the user turn and the assistant turn exactly when the
    engine holds a model and the service returned a text. *)
Theorem chat_changes_turns_only_by_exchange_or_clear :
  forall (msg : string) (e : INKAIEngine) (w : World),
    current_session (memory (fst (exec (chat iso secs svc msg) (e, w))))
    = if Py.startswith msg "/train" || Py.startswith msg "/code"
         || Py.startswith msg "/svg"
      then current_session (memory e)
      else if Py.startswith msg "/clear" then []
      else
        match model e,
              svc (service_calls w)
                  (response_prompt
                     (Py.join Py.nl
                        (map (fun t => role t ++ ": " ++ content t)
                             (lastn 10 (current_session (memory e)))))
                     msg) with
        | Some _, Returns ai =>
            (current_session (memory e)
             ++ exchange_turns iso (clock_reads w) msg ai)%list
        | _, _ => current_session (memory e)
        end.
Proof.
  intros msg e w. by_route msg e w; cbn [orb].
  - reflexivity.
  - destruct (model e); [destruct (svc _ _) |]; reflexivity.
  - reflexivity.
  - reflexivity.
  - destruct (model e); [destruct (svc _ _) |]; reflexivity.
Qed.

(** What one message keeps and what it may change. *)
Lemma chat_step (msg : string) (e : INKAIEngine) (w : World) :
  let s' := exec (chat iso secs svc msg) (e, w) in
  api_key (fst s') = api_key e
  /\ model (fst s') = model e
  /\ training_mode (fst s')
     = training_mode e || Py.startswith msg "/train"
  /\ (in_sync (memory e, w) -> in_sync (memory (fst s'), snd s'))
  /\ (model e = None -> service_calls (snd s') = service_calls w).
Proof.
  by_route msg e w.
  - cbn [fst snd api_key model training_mode memory]. rewrite orb_true_r.
    repeat split. intros _. apply in_sync_saved.
  - destruct (model e) as [g |] eqn:Hm; [destruct (svc _ _) |];
      cbn [fst snd with_memory api_key model training_mode memory];
      rewrite orb_false_r;
      (repeat split; try assumption; try discriminate);
      first [ intros H; exact H | intros _; eexists; reflexivity ].
  - cbn [fst snd]. rewrite orb_false_r. repeat split.
    intros [stamp H]. exists stamp. exact H.
  - cbn [fst snd with_memory api_key model training_mode memory].
    rewrite orb_false_r. repeat split. intros _. apply in_sync_saved.
  - destruct (model e) as [g |] eqn:Hm; [destruct (svc _ _) |];
      cbn [fst snd with_memory api_key model training_mode memory];
      rewrite orb_false_r;
      (repeat split; try assumption; try discriminate);
      first [ intros H; exact H | intros _; eexists; reflexivity ].
Qed.

Lemma run_chats_cons (msg : string) (rest : list string) (s : EngineState) :
  exec (run_chats iso secs svc (msg :: rest)) s
  = exec (run_chats iso secs svc rest) (exec (chat iso secs svc msg) s).
Proof.
  unfold exec. cbn [run_chats]. unfold bind.
  destruct (chat iso secs svc msg s) as [r s1]. cbn [snd].
  destruct (run_chats iso secs svc rest s1) as [rs s2]. reflexivity.
Qed.

Lemma run_chats_eval_cons (msg : string) (rest : list string)
    (s : EngineState) :
  eval (run_chats iso secs svc (msg :: rest)) s
  = eval (chat iso secs svc msg) s
    :: eval (run_chats iso secs svc rest) (exec (chat iso secs svc msg) s).
Proof.
  unfold eval, exec. cbn [run_chats]. unfold bind.
  destruct (chat iso secs svc msg s) as [r s1]. cbn [snd fst].
  destruct (run_chats iso secs svc rest s1) as [rs s2]. reflexivity.
Qed.

(** X12.  Once the file mirrors the store it does so after every
    request: whatever messages are served, the snapshot on disk is the
    window of the store the engine holds. *)
Theorem requests_keep_file_in_step :
  forall (msgs : list string) (e : INKAIEngine) (w : World),
    in_sync (memory e, w) ->
    let s' := exec (run_chats iso secs svc msgs) (e, w) in
    in_sync (memory (fst s'), snd s')
    /\ snapshot_turns (snd s')
       = Some (JArr (map json_of_turn
                       (lastn 100 (current_session (memory (fst s'))))))
    /\ snapshot_thoughts (snd s')
       = Some (JArr (map json_of_thought
                       (lastn 100 (thinking_log (memory (fst s')))))).
Proof.
  intros msgs e w Hsync s'.
  assert (H : in_sync (memory (fst s'), snd s')).
  { subst s'. revert e w Hsync. induction msgs as [| msg rest IH];
      intros e w Hsync.
    - exact Hsync.
    - rewrite run_chats_cons.
      destruct (exec (chat iso secs svc msg) (e, w)) as [e1 w1] eqn:Hstep.
      apply IH.
      pose proof (chat_step msg e w) as (_ & _ & _ & Hkeep & _).
      rewrite Hstep in Hkeep. exact (Hkeep Hsync). }
  split; [exact H |]. exact (in_sync_fields _ H).
Qed.

(** X13.  An engine built over a file this program saved starts with
    the file in step with its store, whatever the key. *)
Theorem engine_starts_in_step_with_saved_file :
  forall (raises : string -> bool) (key : string) (m : INKMemory)
         (w : World),
    in_sync (m, w) ->
    exists e,
      INKAIEngine_init raises key w = Built e
      /\ memory e = mkMemory (lastn 100 (current_session m))
                             (lastn 100 (thinking_log m))
      /\ in_sync (memory e, w).
Proof.
  intros raises key m w Hsync.
  unfold INKAIEngine_init, INKMemory_init.
  rewrite (load_in_sync m _ w Hsync).
  eexists. split; [reflexivity |].
  assert (Hmem : memory (initialize_model raises
                   (mkEngine key None
                      (mkMemory (lastn 100 (current_session m))
                                (lastn 100 (thinking_log m))) false))
                 = mkMemory (lastn 100 (current_session m))
                            (lastn 100 (thinking_log m))).
  { unfold initialize_model. cbn [api_key].
    destruct (String.eqb key ""), (raises key); reflexivity. }
  split; [exact Hmem |]. rewrite Hmem.
  destruct Hsync as [stamp Hfile]. exists stamp. cbn [fst snd] in *.
  rewrite Hfile. unfold snapshot. cbn [current_session thinking_log].
  rewrite !slice_from_lastn_100, !lastn_lastn. reflexivity.
Qed.

(** X14.  No request changes the key or the model handle.  An engine
    without a model therefore never calls the remote service, and
    answers every message of the chat route with the fixed refusal,
    however many requests it has served. *)
Theorem requests_never_gain_a_model :
  forall (msgs : list string) (e : INKAIEngine) (w : World),
    let s' := exec (run_chats iso secs svc msgs) (e, w) in
    api_key (fst s') = api_key e
    /\ model (fst s') = model e
    /\ (model e = None ->
        service_calls (snd s') = service_calls w
        /\ Forall2
             (fun msg reply =>
                selects msg RouteChat ->
                reply = mkReply refusal_text refusal_diagnostic)
             msgs (eval (run_chats iso secs svc msgs) (e, w))).
Proof.
  induction msgs as [| msg rest IH]; intros e w s'.
  - subst s'. repeat split. constructor.
  - subst s'. rewrite run_chats_cons, run_chats_eval_cons.
    destruct (exec (chat iso secs svc msg) (e, w)) as [e1 w1] eqn:Hstep.
    pose proof (chat_step msg e w) as (Hkey & Hmodel & _ & _ & Hcalls).
    rewrite Hstep in Hkey, Hmodel, Hcalls. cbn [fst snd] in Hkey, Hmodel, Hcalls.
    destruct (IH e1 w1) as (IHkey & IHmodel & IHnone).
    split; [congruence | split; [congruence |]].
    intros Hnone.
    destruct (IHnone ltac:(congruence)) as [IHcalls IHreplies].
    split; [rewrite IHcalls; exact (Hcalls Hnone) |].
    constructor; [| exact IHreplies].
    intros Hroute.
    destruct (chat_follows_selects msg) as (r & Hsel & Hrun).
    pose proof (selects_functional msg _ _ Hsel Hroute) as ->.
    rewrite Hrun. cbn [run_route].
    unfold eval, generate_response, bind, get_engine. rewrite Hnone.
    reflexivity.
Qed.

(** X15.  The training flag is set by a message beginning with [/train]
    and by nothing else, and nothing ever resets it: after any run of
    requests it is on exactly when it was on before or some message of
    the run began with [/train]. *)
Theorem training_flag_is_sticky :
  forall (msgs : list string) (e : INKAIEngine) (w : World),
    training_mode (fst (exec (run_chats iso secs svc msgs) (e, w)))
    = training_mode e
      || existsb (fun msg => Py.startswith msg "/train") msgs.
Proof.
  induction msgs as [| msg rest IH]; intros e w.
  - cbn. rewrite orb_false_r. reflexivity.
  - rewrite run_chats_cons.
    destruct (exec (chat iso secs svc msg) (e, w)) as [e1 w1] eqn:Hstep.
    pose proof (chat_step msg e w) as (_ & _ & Hflag & _).
    rewrite Hstep in Hflag. cbn [fst] in Hflag.
    rewrite IH, Hflag. cbn [existsb]. rewrite orb_assoc. reflexivity.
Qed.

End Routes.

(* ------------------------------------------------------------------ *)
(** ** The svg and clear routes *)

Section SvgClear.

Variable iso : nat -> string.
Variable secs : nat -> Z.
Variable svc : nat -> string -> Outcome string.

Lemma svg_prefix_excludes (msg : string) :
  Py.startswith msg "/svg" = true ->
  Py.startswith msg "/train" = false /\ Py.startswith msg "/code" = false.
Proof.
  intros H. apply startswith_begins_with in H as [rest ->].
  split; reflexivity.
Qed.

Lemma clear_prefix_excludes (msg : string) :
  Py.startswith msg "/clear" = true ->
  Py.startswith msg "/train" = false /\ Py.startswith msg "/code" = false
  /\ Py.startswith msg "/svg" = false.
Proof.
  intros H. apply startswith_begins_with in H as [rest ->].
  repeat split; reflexivity.
Qed.

Lemma chat_on_svg (msg : string) :
  Py.startswith msg "/svg" = true ->
  chat iso secs svc msg = chat_svg secs msg.
Proof.
  intros H. destruct (svg_prefix_excludes msg H) as [Ht Hc].
  unfold chat. rewrite Ht, Hc, H. reflexivity.
Qed.

Lemma chat_on_clear (msg : string) :
  Py.startswith msg "/clear" = true ->
  chat iso secs svc msg = chat_clear iso.
Proof.
  intros H. destruct (clear_prefix_excludes msg H) as (Ht & Hc & Hs).
  unfold chat. rewrite Ht, Hc, Hs, H. reflexivity.
Qed.

Lemma image_at_with_image (path : string) (d : Drawing) (w : World) :
  image_at path (with_image path d w) = Some d.
Proof.
  unfold image_at, with_image. cbn [image_files newest].
  rewrite String.eqb_refl. reflexivity.
Qed.

(** X16.  A message beginning with [/svg] writes one image file and
    touches nothing else: the engine, the snapshot file and the count of
    service calls stay as they were.  The file named in the response is
    the file written, under the images directory, and it holds the
    400px by 400px drawing of the shape the trimmed text after the
    first five characters is classified as. *)
Theorem chat_svg_writes_named_file :
  forall (msg : string) (e : INKAIEngine) (w : World),
    Py.startswith msg "/svg" = true ->
    let seconds := secs (clock_reads w) in
    let description := Py.strip (Py.str_from 5 msg) in
    let run := chat iso secs svc msg (e, w) in
    response (fst run)
      = "SVG created! View it at: /images/" ++ svg_name seconds
    /\ fst (snd run) = e
    /\ memory_json (snd (snd run)) = memory_json w
    /\ service_calls (snd (snd run)) = service_calls w
    /\ image_files (snd (snd run))
       = (svg_path seconds, svg_drawing description (svg_path seconds))
         :: image_files w
    /\ exists s : Shape,
         classified description s
         /\ image_at ("cache/images/" ++ svg_name seconds) (snd (snd run))
            = Some (mkDrawing (svg_path seconds) ("400px", "400px")
                              (shape_elements s description)).
Proof.
  intros msg e w Hsvg seconds description run. subst run.
  rewrite (chat_on_svg msg Hsvg), chat_svg_state. cbv zeta.
  cbn [fst snd response]. fold seconds. fold description.
  repeat split.
  destruct (svg_drawing_classified description (svg_path seconds))
    as (s & Hs & Hdraw).
  exists s. split; [exact Hs |].
  change ("cache/images/" ++ svg_name seconds) with (svg_path seconds).
  rewrite image_at_with_image, Hdraw. reflexivity.
Qed.

(** X17.  Two [/svg] requests served within the same second get the same
    file name, and the file then holds the drawing of the second
    request: the first image is overwritten. *)
Theorem chat_svg_same_second_overwrites :
  forall (first second : string) (e : INKAIEngine) (w : World),
    Py.startswith first "/svg" = true ->
    Py.startswith second "/svg" = true ->
    secs (S (clock_reads w)) = secs (clock_reads w) ->
    let seconds := secs (clock_reads w) in
    map response (eval (run_chats iso secs svc [first; second]) (e, w))
    = ["SVG created! View it at: /images/" ++ svg_name seconds;
       "SVG created! View it at: /images/" ++ svg_name seconds]
    /\ image_at (svg_path seconds)
         (snd (exec (run_chats iso secs svc [first; second]) (e, w)))
       = Some (svg_drawing (Py.strip (Py.str_from 5 second))
                           (svg_path seconds)).
Proof.
  intros m1 m2 e w H1 H2 Hsame seconds.
  rewrite !run_chats_eval_cons, !run_chats_cons.
  unfold exec, eval.
  rewrite (chat_on_svg m1 H1), (chat_on_svg m2 H2), chat_svg_state.
  cbv zeta. cbn [fst snd]. rewrite chat_svg_state. cbv zeta.
  cbn [fst snd clock_reads with_image ticked run_chats ret map response].
  rewrite Hsame. fold seconds. split; [reflexivity |].
  apply image_at_with_image.
Qed.

(** X18.  A message beginning with [/clear] is answered with the fixed
    acknowledgement, leaves no turn and no thought, so that the
    thinking route shows the empty text, and a restart afterwards finds
    an empty store.  The key, the model and the training flag stay. *)
Theorem chat_clear_wipes_store :
  forall (msg : string) (e : INKAIEngine) (w : World),
    Py.startswith msg "/clear" = true ->
    let run := chat iso secs svc msg (e, w) in
    fst run = mkReply "Memory cleared!" "Session reset"
    /\ fst (snd run)
       = mkEngine (api_key e) (model e) (mkMemory [] []) (training_mode e)
    /\ eval get_thinking (snd run) = ""
    /\ INKMemory_init (snd (snd run)) = Built (mkMemory [] []).
Proof.
  intros msg e w Hclear run. subst run.
  rewrite (chat_on_clear msg Hclear), chat_clear_state.
  cbn [fst snd]. repeat split.
Qed.

End SvgClear.

(* ------------------------------------------------------------------ *)
(** ** Labels and trimmed text *)

Lemma substring_prefix (n : nat) (s : string) :
  exists rest,
    s = substring 0 n s ++ rest
    /\ String.length (substring 0 n s) = Nat.min n (String.length s).
Proof.
  revert n. induction s as [| c s IH]; intros n.
  - exists "". destruct n; split; reflexivity.
  - destruct n as [| n].
    + exists (String c s). split; reflexivity.
    + destruct (IH n) as (rest & Hs & Hlen). exists rest. cbn. split.
      * f_equal. exact Hs.
      * f_equal. exact Hlen.
Qed.

Lemma string_length_append (a b : string) :
  String.length (a ++ b) = String.length a + String.length b.
Proof. induction a as [| c a IH]; cbn; [| rewrite IH]; reflexivity. Qed.

(** X19.  For a description that names none of the shapes, the image is
    the light-gray square and a label that is the description cut to its
    first 20 characters: the whole description when it has at most 20. *)
Theorem svg_label_is_cut_description :
  forall (description path : string),
    classified description ShapeLabel ->
    exists label rest,
      dwg_elements (svg_drawing description path)
      = [Rect (50, 50)%Z (300, 300)%Z "lightgray";
         Text label (200, 200)%Z "middle" "20px"]
      /\ description = label ++ rest
      /\ String.length label = Nat.min 20 (String.length description)
      /\ (String.length description <= 20 -> label = description).
Proof.
  intros d path Hlabel.
  destruct (svg_drawing_classified d path) as (s & Hs & Hdraw).
  pose proof (classified_functional d _ _ Hs Hlabel) as ->.
  destruct (substring_prefix 20 d) as (rest & Hd & Hlen).
  exists (substring 0 20 d), rest. rewrite Hdraw.
  split; [reflexivity | split; [exact Hd | split; [exact Hlen |]]].
  intros Hshort.
  assert (Hrest : String.length rest = 0).
  { apply (f_equal String.length) in Hd.
    rewrite string_length_append, Hlen in Hd. lia. }
  destruct rest; [| discriminate].
  rewrite Hd at 2. clear. induction (substring 0 20 d) as [| c s IH];
    cbn; [| rewrite <- IH]; reflexivity.
Qed.

Lemma lstrip_chars_head (l : list ascii) (c : ascii) (r : list ascii) :
  Py.lstrip_chars l = c :: r -> Py.isspace c = false.
Proof.
  induction l as [| a l IH]; cbn; [discriminate |].
  destruct (Py.isspace a) eqn:Ha; [exact IH |].
  intros [= <- _]. exact Ha.
Qed.

Lemma lstrip_chars_suffix (l : list ascii) :
  exists spaces, l = (spaces ++ Py.lstrip_chars l)%list.
Proof.
  induction l as [| a l [spaces IH]]; cbn.
  - exists []. reflexivity.
  - destruct (Py.isspace a).
    + exists (a :: spaces). cbn. f_equal. exact IH.
    + exists []. reflexivity.
Qed.

Lemma list_ascii_of_append (a b : string) :
  list_ascii_of_string (a ++ b)
  = (list_ascii_of_string a ++ list_ascii_of_string b)%list.
Proof. induction a as [| c a IH]; cbn; [| rewrite IH]; reflexivity. Qed.

Lemma strip_trimmed (s : string) : trimmed (Py.strip s).
Proof.
  unfold Py.strip.
  set (a := Py.lstrip_chars (list_ascii_of_string s)).
  set (b := Py.lstrip_chars (rev a)).
  destruct (lstrip_chars_suffix (rev a)) as [spaces Hb]. fold b in Hb.
  assert (Ha : a = (rev b ++ rev spaces)%list).
  { rewrite <- rev_app_distr, <- Hb, rev_involutive. reflexivity. }
  intros c rest. split; intros H;
    apply (f_equal list_ascii_of_string) in H;
    rewrite list_ascii_of_string_of_list_ascii in H.
  - cbn in H. rewrite H in Ha. cbn in Ha.
    exact (lstrip_chars_head _ _ _ Ha).
  - rewrite list_ascii_of_append in H. cbn in H.
    apply (f_equal (@rev ascii)) in H.
    rewrite rev_involutive, rev_app_distr in H. cbn in H.
    exact (lstrip_chars_head _ _ _ H).
Qed.

Lemma strip_blank (s : string) : blank s = true -> Py.strip s = "".
Proof.
  intros H. unfold Py.strip.
  assert (Hl : Py.lstrip_chars (list_ascii_of_string s) = []).
  { induction s as [| c s IH]; cbn in *; [reflexivity |].
    apply andb_true_iff in H as [Hc Hs]. rewrite Hc. exact (IH Hs). }
  rewrite Hl. reflexivity.
Qed.

(** X20.  The instruction a [/train] message hands over never begins or
    ends with whitespace, and is empty when only whitespace follows the
    first seven characters; the acknowledgement embeds exactly that
    instruction. *)
Theorem chat_train_instruction_is_trimmed :
  forall (iso : nat -> string) (secs : nat -> Z)
         (svc : nat -> string -> Outcome string)
         (msg : string) (e : INKAIEngine) (w : World),
    Py.startswith msg "/train" = true ->
    exists instruction,
      response (eval (chat iso secs svc msg) (e, w))
      = "Training mode activated. Instruction: " ++ instruction
      /\ trimmed instruction
      /\ (blank (Py.str_from 7 msg) = true -> instruction = "").
Proof.
  intros iso secs svc msg e w Hprefix.
  exists (Py.strip (Py.str_from 7 msg)). split; [| split].
  - unfold eval, chat. rewrite Hprefix. reflexivity.
  - apply strip_trimmed.
  - apply strip_blank.
Qed.

(* ------------------------------------------------------------------ *)
(** ** The further statements at sample inputs *)



Lemma engine_has_model_iff_key_accepted_witness :
  INKAIEngine_init Sample2.accepting "secret" Sample.world
  = Built (mkEngine "secret" (Some (GenModel "gemini-2.5-flash"))
                    (mkMemory [] []) false)
  /\ api_key (mkEngine "secret" (Some (GenModel "gemini-2.5-flash"))
                       (mkMemory [] []) false)
     = "secret".
Proof.
  split; [reflexivity |].
  exact (proj1 (proj2 (engine_has_model_iff_key_accepted Sample2.accepting
                         "secret" Sample.world _ eq_refl))).
Defined.

Lemma generate_response_records_exchange_witness :
  model Sample.with_key = Some (GenModel "gemini-2.5-flash")
  /\ response
       (fst (generate_response Sample.iso Sample.answering "how are you"
               (Sample.with_key, Sample.world)))
     = "Hello from INK".
Proof.
  split; [reflexivity |].
  rewrite (generate_response_records_exchange Sample.iso Sample.answering
             "how are you" "Hello from INK" (GenModel "gemini-2.5-flash")
             Sample.with_key Sample.world eq_refl eq_refl).
  reflexivity.
Defined.

Lemma generate_response_sees_last_ten_turns_witness :
  lastn 10 (current_session (memory Sample2.long_memory))
  = lastn 10 (current_session (memory Sample2.short_memory))
  /\ response
       (eval (generate_response Sample.iso Sample.answering "next")
             (Sample2.long_memory, Sample.world))
     = response
         (eval (generate_response Sample.iso Sample.answering "next")
               (Sample2.short_memory, Sample.world)).
Proof.
  assert (Hten : lastn 10 (current_session (memory Sample2.long_memory))
                 = lastn 10 (current_session (memory Sample2.short_memory)))
    by reflexivity.
  split; [exact Hten |].
  apply (generate_response_sees_last_ten_turns Sample.iso Sample.answering
           "next" Sample2.long_memory Sample2.short_memory
           Sample.world Sample.world).
  - discriminate.
  - discriminate.
  - exact Hten.
  - reflexivity.
Defined.


Lemma requests_keep_file_in_step_witness :
  in_sync (memory Sample.with_key, Sample2.saved)
  /\ in_sync
       (memory (fst (exec (run_chats Sample.iso Sample.secs Sample.answering
                             Sample2.messages)
                          (Sample.with_key, Sample2.saved))),
        snd (exec (run_chats Sample.iso Sample.secs Sample.answering
                     Sample2.messages)
                  (Sample.with_key, Sample2.saved))).
Proof.
  assert (Hsync : in_sync (memory Sample.with_key, Sample2.saved))
    by (exists (Sample.iso 0); reflexivity).
  split; [exact Hsync |].
  exact (proj1 (requests_keep_file_in_step Sample.iso Sample.secs
                  Sample.answering Sample2.messages Sample.with_key
                  Sample2.saved Hsync)).
Defined.

Lemma engine_starts_in_step_with_saved_file_witness :
  in_sync (Sample.two_turns, Sample2.saved)
  /\ exists e,
       INKAIEngine_init Sample2.accepting "secret" Sample2.saved = Built e
       /\ memory e = mkMemory (lastn 100 (current_session Sample.two_turns))
                              (lastn 100 (thinking_log Sample.two_turns))
       /\ in_sync (memory e, Sample2.saved).
Proof.
  assert (Hsync : in_sync (Sample.two_turns, Sample2.saved))
    by (exists (Sample.iso 0); reflexivity).
  split; [exact Hsync |].
  exact (engine_starts_in_step_with_saved_file Sample2.accepting "secret"
           Sample.two_turns Sample2.saved Hsync).
Defined.

Lemma chat_svg_writes_named_file_witness :
  Py.startswith "/svg a circle" "/svg" = true
  /\ response
       (fst (chat Sample.iso Sample.secs Sample.answering "/svg a circle"
               (Sample.with_key, Sample.world)))
     = "SVG created! View it at: /images/svg_1700000000.svg".
Proof.
  split; [reflexivity |].
  exact (proj1 (chat_svg_writes_named_file Sample.iso Sample.secs
                  Sample.answering "/svg a circle" Sample.with_key
                  Sample.world eq_refl)).
Defined.

Lemma chat_svg_same_second_overwrites_witness :
  Sample2.frozen 1 = Sample2.frozen 0
  /\ image_at (svg_path 1700000000)
       (snd (exec (run_chats Sample.iso Sample2.frozen Sample.answering
                     ["/svg a circle"; "/svg a star"])
                  (Sample.with_key, Sample.world)))
     = Some (svg_drawing "a star" (svg_path 1700000000)).
Proof.
  split; [reflexivity |].
  exact (proj2 (chat_svg_same_second_overwrites Sample.iso Sample2.frozen
                  Sample.answering "/svg a circle" "/svg a star"
                  Sample.with_key Sample.world eq_refl eq_refl eq_refl)).
Defined.

Lemma chat_clear_wipes_store_witness :
  Py.startswith "/clear" "/clear" = true
  /\ INKMemory_init
       (snd (snd (chat Sample.iso Sample.secs Sample.answering "/clear"
                    (Sample.with_key, Sample2.saved))))
     = Built (mkMemory [] []).
Proof.
  split; [reflexivity |].
  exact (proj2 (proj2 (proj2 (chat_clear_wipes_store Sample.iso Sample.secs
                                Sample.answering "/clear" Sample.with_key
                                Sample2.saved eq_refl)))).
Defined.

Lemma svg_label_is_cut_description_witness :
  classified "a description that is rather long" ShapeLabel
  /\ exists label rest,
       dwg_elements
         (svg_drawing "a description that is rather long" "cache/images/x.svg")
       = [Rect (50, 50)%Z (300, 300)%Z "lightgray";
          Text label (200, 200)%Z "middle" "20px"]
       /\ "a description that is rather long" = label ++ rest
       /\ String.length label
          = Nat.min 20 (String.length "a description that is rather long")
       /\ (String.length "a description that is rather long" <= 20 ->
           label = "a description that is rather long").
Proof.
  assert (H : classified "a description that is rather long" ShapeLabel)
    by (apply classified_label; mentions_by_search).
  split; [exact H |].
  exact (svg_label_is_cut_description "a description that is rather long"
           "cache/images/x.svg" H).
Defined.

Lemma chat_train_instruction_is_trimmed_witness :
  Py.startswith "/train   " "/train" = true
  /\ exists instruction,
       response (eval (chat Sample.iso Sample.secs Sample.answering "/train   ")
                      (Sample.with_key, Sample.world))
       = "Training mode activated. Instruction: " ++ instruction
       /\ trimmed instruction
       /\ (blank (Py.str_from 7 "/train   ") = true -> instruction = "").
Proof.
  split; [reflexivity |].
  exact (chat_train_instruction_is_trimmed Sample.iso Sample.secs
           Sample.answering "/train   " Sample.with_key Sample.world eq_refl).
Defined.
